(** * queries.js: the bookstore query runner over a document collection

    The program is a sequence of calls into the document-database driver,
    each followed by console output.  The development has four layers:

    - [Double] and [Number]: the numbers of the program, which are IEEE 754
      doubles, and the arithmetic and printing of JavaScript on the
      integers among them;
    - [Mongo]: the collection operations the program calls (find with
      filter, sort, skip and limit; updateOne; deleteOne; the aggregation
      stages $group, $sort and $limit; index creation and explain), with
      the behaviour the driver documents for them;
    - the asynchronous layer: a state-and-exception monad over a [World]
      holding the collection, its indexes, the console and the log of
      driver calls, in which a driver call may be rejected by the server;
    - the functions of queries.js, written call for call in that monad. *)

From Stdlib Require Import List String Ascii ZArith QArith Qreduction Bool Lia.
From Stdlib Require Import Permutation Sorted DecimalString Lqa.
Import ListNotations.

Open Scope string_scope.
Open Scope Z_scope.

(** ** Numbers

    A number of JavaScript, and of the documents the driver sends, is an
    IEEE 754 double.  A finite double is kept as the rational it denotes
    and an integer-valued one as that integer; [Double.round] and
    [Number.of_Z] give the double nearest to a rational and to an integer,
    ties to the even significand.  Overflow to an infinity, which takes
    magnitudes of 2^1024 and more, is not modelled. *)

Module Double.

(** Doubles have significands of 53 bits and a unit in the last place of
    2^-1074 at least. *)
Definition pow2 (k : Z) : Z := 2 ^ Z.max k 0.

(** [n / d] to the nearest integer, ties to even. *)
Definition half_even (n d : Z) : Z :=
  let q := n / d in
  let r := n mod d in
  if 2 * r <? d then q
  else if d <? 2 * r then q + 1
  else if Z.even q then q else q + 1.

(** The exponent [e] of the unit in the last place of [n / d]: the
    significand [n / d / 2^e] lies from 2^52 up to 2^53, or below for a
    subnormal. *)
Definition ulp_exponent (n d : Z) : Z :=
  let t := Z.log2 n - Z.log2 d in
  let floor_log2 := if d * pow2 t <=? n * pow2 (- t) then t else t - 1 in
  Z.max (floor_log2 - 52) (-1074).

Definition nearest (n d : Z) : Q :=
  let e := ulp_exponent n d in
  let m := half_even (n * pow2 (- e)) (d * pow2 e) in
  Qred (Qmake (m * pow2 e) (Z.to_pos (pow2 (- e)))).

Definition round (q : Q) : Q :=
  let r := Qred q in
  match Qnum r with
  | Z0 => 0%Q
  | Zpos n => nearest (Zpos n) (Zpos (Qden r))
  | Zneg n => Qopp (nearest (Zpos n) (Zpos (Qden r)))
  end.

End Double.

(** The integers as JavaScript computes with them and prints them in a
    template literal: [a - b] and [a * b] round to a double, and
    [toString] writes the shortest decimal that reads back as the same
    double, in full with zeros up to 21 digits and with an exponent
    beyond.  Every integer up to 2^53 is a double and prints as itself. *)
Module Number.

Definition of_Z (z : Z) : Z :=
  if Z.abs z <=? 2 ^ 53 then z
  else
    let e := Z.log2 (Z.abs z) - 52 in
    Z.sgn z * (Double.half_even (Z.abs z) (2 ^ e) * 2 ^ e).

Definition sub (a b : Z) : Z := of_Z (a - b).
Definition mul (a b : Z) : Z := of_Z (a * b).

Definition decimal (z : Z) : string :=
  NilZero.string_of_uint (N.to_uint (Z.to_N z)).
Definition digits (z : Z) : Z := Z.of_nat (String.length (decimal z)).

(** The decimal of [k] significant digits that reads back as [a], the
    nearer one when there are two. *)
Definition candidate (a : Z) (k : Z) : option Z :=
  let u := 10 ^ (digits a - k) in
  let lo := a / u * u in
  let hi := lo + u in
  let lo_ok := of_Z lo =? a in
  let hi_ok := of_Z hi =? a in
  if lo_ok && hi_ok then
    if a - lo <? hi - a then Some lo
    else if hi - a <? a - lo then Some hi
    else if Z.even (a / u) then Some lo else Some hi
  else if lo_ok then Some lo
  else if hi_ok then Some hi
  else None.

Fixpoint shortest_from (fuel : nat) (a : Z) (k : Z) : Z :=
  match fuel with
  | O => a
  | S fuel' =>
      match candidate a k with
      | Some c => c
      | None => shortest_from fuel' a (k + 1)
      end
  end.

Definition shortest (a : Z) : Z := shortest_from 17 a 1.

Fixpoint strip_zeros_rev (s : list ascii) : list ascii :=
  match s with
  | "0"%char :: r => strip_zeros_rev r
  | _ => s
  end.

Definition significant (c : Z) : string :=
  string_of_list_ascii
    (rev (strip_zeros_rev (rev (list_ascii_of_string (decimal c))))).

Definition exponential (c : Z) : string :=
  match significant c with
  | String d rest =>
      String d (match rest with
                | EmptyString => ""
                | _ => "." ++ rest
                end)
        ++ "e+" ++ decimal (digits c - 1)
  | EmptyString => ""
  end.

Definition unsigned_toString (a : Z) : string :=
  if a <=? 2 ^ 53 then decimal a
  else
    let c := shortest a in
    if digits c <=? 21 then decimal c else exponential c.

Definition toString (z : Z) : string :=
  match z with
  | Z0 => "0"
  | Zpos _ => unsigned_toString z
  | Zneg _ => "-" ++ unsigned_toString (- z)
  end.

End Number.

(** ** Book documents

    The fields of the data set.  Years are integers; prices are doubles,
    each kept as the rational it denotes.  The [_id] that the server gives
    a document on insertion is not part of the record. *)

Record Book := mkBook {
  title : string;
  author : string;
  genre : string;
  published_year : Z;
  price : Q;
  in_stock : bool
}.

(** ** The driver's collection operations *)

Module Mongo.

(** The collection in natural order: the order in which a scan without a
    sort returns the documents. *)
Definition Collection := list Book.

(** *** Query filters

    A filter object is a conjunction of conditions on fields; [{}] is the
    empty conjunction. *)
Inductive Cond :=
| TitleEq (t : string)
| AuthorEq (a : string)
| InStockEq (b : bool)
| PublishedYearGt (y : Z).

Definition Filter := list Cond.

Definition holds (c : Cond) (b : Book) : bool :=
  match c with
  | TitleEq t => String.eqb (title b) t
  | AuthorEq a => String.eqb (author b) a
  | InStockEq s => Bool.eqb (in_stock b) s
  | PublishedYearGt y => y <? published_year b
  end.

Definition matches (f : Filter) (b : Book) : bool :=
  forallb (fun c => holds c b) f.

Definition find (f : Filter) (c : Collection) : list Book :=
  filter (matches f) c.

(** *** Sorting

    A stable insertion sort for a boolean order; the direction is the
    number given in the sort document, 1 for ascending and -1 for
    descending. *)
Section Sort.
Context {A : Type} (leb : A -> A -> bool).

Fixpoint insert_sorted (x : A) (l : list A) : list A :=
  match l with
  | [] => [x]
  | y :: r => if leb x y then x :: l else y :: insert_sorted x r
  end.

Fixpoint isort (l : list A) : list A :=
  match l with
  | [] => []
  | x :: r => insert_sorted x (isort r)
  end.
End Sort.

Definition directed {A} (leb : A -> A -> bool) (direction : Z)
  : A -> A -> bool :=
  if 0 <? direction then leb else fun a b => leb b a.

Definition sort {A K} (key : A -> K) (leb : K -> K -> bool)
           (direction : Z) (l : list A) : list A :=
  isort (directed (fun a b => leb (key a) (key b)) direction) l.

(** *** Find cursors

    [find] builds a cursor from a filter and, when given, a projection;
    [sort], [skip] and [limit] set its options and nothing is sent before
    [toArray].  The server then filters, sorts, skips and limits, in that
    order, and projects what is left.  It rejects a negative skip; a limit
    of 0 means no limit, and a negative limit keeps the first [-n]
    documents.

    A projection document lists fields with 1 to include them; the
    documents that come back hold the included fields only, in the order
    of the stored document. *)
Inductive SortDoc := ByPrice (direction : Z).

Inductive FieldValue :=
| FString (s : string)
| FInteger (z : Z)
| FNumber (q : Q)
| FBoolean (b : bool).

Definition Document := list (string * FieldValue).

Definition fields (b : Book) : Document :=
  [("title", FString (title b));
   ("author", FString (author b));
   ("genre", FString (genre b));
   ("published_year", FInteger (published_year b));
   ("price", FNumber (price b));
   ("in_stock", FBoolean (in_stock b))].

Definition ProjectionDoc := list (string * Z).

Definition included (spec : ProjectionDoc) (name : string) : bool :=
  existsb (fun f => String.eqb (fst f) name && (snd f =? 1)) spec.

Definition project (spec : ProjectionDoc) (b : Book) : Document :=
  filter (fun kv => included spec (fst kv)) (fields b).

Definition result_of (projection : option ProjectionDoc) : Type :=
  match projection with
  | None => Book
  | Some _ => Document
  end.

Definition projected (projection : option ProjectionDoc) (l : list Book)
  : list (result_of projection) :=
  match projection with
  | None => l
  | Some spec => map (project spec) l
  end.

Record FindCursor := mkFindCursor {
  c_filter : Filter;
  c_projection : option ProjectionDoc;
  c_sort : option SortDoc;
  c_skip : Z;
  c_limit : Z
}.

Definition sorted_by (s : option SortDoc) (l : list Book) : list Book :=
  match s with
  | None => l
  | Some (ByPrice d) => sort price Qle_bool d l
  end.

Definition skipped {A} (n : Z) (l : list A) : option (list A) :=
  if n <? 0 then None else Some (skipn (Z.to_nat n) l).

Definition limited {A} (n : Z) (l : list A) : list A :=
  if n =? 0 then l else firstn (Z.to_nat (Z.abs n)) l.

Definition execute (cur : FindCursor) (c : Collection)
  : option (list (result_of (c_projection cur))) :=
  option_map
    (fun l => projected (c_projection cur) (limited (c_limit cur) l))
    (skipped (c_skip cur) (sorted_by (c_sort cur) (find (c_filter cur) c))).

(** *** updateOne with [{ $set: { price } }] and deleteOne

    Both act on the first document matching the filter.  Without the
    upsert option, which queries.js never passes, updateOne inserts
    nothing.  A $set that leaves the value as it is modifies nothing. *)
Record UpdateResult := mkUpdateResult {
  matchedCount : Z;
  modifiedCount : Z
}.

Definition set_price (p : Q) (b : Book) : Book :=
  mkBook (title b) (author b) (genre b) (published_year b) p (in_stock b).

Fixpoint updateOne_set_price (f : Filter) (p : Q) (c : Collection)
  : UpdateResult * Collection :=
  match c with
  | [] => (mkUpdateResult 0 0, [])
  | b :: r =>
      if matches f b then
        if Qeq_bool (price b) p then (mkUpdateResult 1 0, b :: r)
        else (mkUpdateResult 1 1, set_price p b :: r)
      else
        let (res, r') := updateOne_set_price f p r in (res, b :: r')
  end.

Record DeleteResult := mkDeleteResult { deletedCount : Z }.

Fixpoint deleteOne (f : Filter) (c : Collection)
  : DeleteResult * Collection :=
  match c with
  | [] => (mkDeleteResult 0, [])
  | b :: r =>
      if matches f b then (mkDeleteResult 1, r)
      else let (res, r') := deleteOne f r in (res, b :: r')
  end.

(** *** Aggregation stages *)

Record Group (K V : Type) := mkGroup { _id : K; acc : V }.
Arguments mkGroup {K V}.
Arguments _id {K V}.
Arguments acc {K V}.

(** The distinct keys of a list, in order of first occurrence. *)
Fixpoint distinct {K} (eqb : K -> K -> bool) (l : list K) : list K :=
  match l with
  | [] => []
  | k :: r => k :: filter (fun k' => negb (eqb k k')) (distinct eqb r)
  end.

Definition members {K} (eqb : K -> K -> bool) (key : Book -> K) (k : K)
           (input : list Book) : list Book :=
  filter (fun b => eqb (key b) k) input.

(** [$group]: one output document per distinct value of the key
    expression, carrying the accumulator over the documents of the
    group. *)
Definition group {K V} (eqb : K -> K -> bool) (key : Book -> K)
           (accumulator : list Book -> V) (input : list Book)
  : list (Group K V) :=
  map (fun k => mkGroup k (accumulator (members eqb key k input)))
      (distinct eqb (map key input)).

(** The number of documents of a group, which is what [{ $sum: 1 }]
    adds up to. *)
Definition sum_1 (docs : list Book) : Z := Z.of_nat (List.length docs).

(** [$avg]: the server adds the numbers with a compensated sum, which
    rounds once, to the double nearest to the total, and divides that by
    the count in double arithmetic. *)
Definition sum_of (field : Book -> Q) (docs : list Book) : Q :=
  fold_right (fun b s => Qplus (field b) s) 0%Q docs.

Definition avg (field : Book -> Q) (docs : list Book) : Q :=
  Qred (Double.round
          (Qdiv (Double.round (sum_of field docs))
                (inject_Z (Z.of_nat (List.length docs))))).

(** [$sort] on a field of the grouped documents, and [$limit], which the
    server accepts for a positive number only. *)
Definition sort_stage {A K} (key : A -> K) (leb : K -> K -> bool)
           (direction : Z) (input : list A) : list A :=
  sort key leb direction input.

Definition limit_stage {A} (n : positive) (input : list A) : list A :=
  firstn (Pos.to_nat n) input.

(** *** Aggregation pipelines

    The pipelines of the program: a [$group] stage, whose [_id] and
    accumulator are expressions over the fields of a document, followed by
    [$sort] and [$limit] stages on the grouped documents.  Expressions
    are typed by what they yield. *)
Inductive Ty := TString | TInteger | TNumber.

Definition value (t : Ty) : Type :=
  match t with
  | TString => string
  | TInteger => Z
  | TNumber => Q
  end.

Definition value_eqb (t : Ty) : value t -> value t -> bool :=
  match t with
  | TString => String.eqb
  | TInteger => Z.eqb
  | TNumber => Qeq_bool
  end.

Definition value_leb (t : Ty) : value t -> value t -> bool :=
  match t with
  | TString => String.leb
  | TInteger => Z.leb
  | TNumber => Qle_bool
  end.

(** Field paths such as ["$genre"], integer literals, [$subtract] and
    [$mod], whose result takes the sign of the dividend. *)
Inductive Expr : Ty -> Type :=
| Path_title : Expr TString
| Path_author : Expr TString
| Path_genre : Expr TString
| Path_published_year : Expr TInteger
| Path_price : Expr TNumber
| Literal (z : Z) : Expr TInteger
| Subtract (a b : Expr TInteger) : Expr TInteger
| Mod (a b : Expr TInteger) : Expr TInteger.

Fixpoint eval {t : Ty} (e : Expr t) (b : Book) : value t :=
  match e in Expr t return value t with
  | Path_title => title b
  | Path_author => author b
  | Path_genre => genre b
  | Path_published_year => published_year b
  | Path_price => price b
  | Literal z => z
  | Subtract x y => eval x b - eval y b
  | Mod x y => Z.rem (eval x b) (eval y b)
  end.

Inductive Accumulator : Ty -> Type :=
| Avg (e : Expr TNumber) : Accumulator TNumber
| Sum (e : Expr TInteger) : Accumulator TInteger.

Definition accumulate {t : Ty} (a : Accumulator t) (docs : list Book)
  : value t :=
  match a in Accumulator t return value t with
  | Avg e => avg (eval e) docs
  | Sum e => fold_right Z.add 0 (map (eval e) docs)
  end.

(** [{ $group: { _id: <expression>, <field>: <accumulator> } }] *)
Record GroupStage (k v : Ty) := mkGroupStage {
  g_id : Expr k;
  g_field : string;
  g_accumulator : Accumulator v
}.
Arguments mkGroupStage {k v}.
Arguments g_id {k v}.
Arguments g_field {k v}.
Arguments g_accumulator {k v}.

(** [{ $sort: { <field>: <direction> } }] and [{ $limit: <n> }] *)
Inductive Stage :=
| SortStage (field : string) (direction : Z)
| LimitStage (n : positive).

Record Pipeline (k v : Ty) := mkPipeline {
  p_group : GroupStage k v;
  p_rest : list Stage
}.
Arguments mkPipeline {k v}.
Arguments p_group {k v}.
Arguments p_rest {k v}.

(** A sort on a field the grouped documents do not have leaves them in
    the order they come in. *)
Definition run_stage {k v : Ty} (g : GroupStage k v) (s : Stage)
           (rows : list (Group (value k) (value v)))
  : list (Group (value k) (value v)) :=
  match s with
  | SortStage field direction =>
      if String.eqb field "_id"
      then sort_stage _id (value_leb k) direction rows
      else if String.eqb field (g_field g)
           then sort_stage acc (value_leb v) direction rows
           else rows
  | LimitStage n => limit_stage n rows
  end.

Definition aggregate {k v : Ty} (p : Pipeline k v) (input : list Book)
  : list (Group (value k) (value v)) :=
  fold_left (fun rows s => run_stage (p_group p) s rows) (p_rest p)
            (group (value_eqb k) (eval (g_id (p_group p)))
                   (accumulate (g_accumulator (p_group p))) input).

(** *** Indexes and explain *)

Definition IndexSpec := list (string * Z).

Definition index_name_part (kd : string * Z) : string :=
  fst kd ++ "_" ++ NilZero.string_of_int (Z.to_int (snd kd)).

Definition index_name (spec : IndexSpec) : string :=
  String.concat "_" (map index_name_part spec).

Definition spec_eqb (a b : IndexSpec) : bool :=
  String.eqb (index_name a) (index_name b).

Definition createIndex (spec : IndexSpec) (ixs : list IndexSpec)
  : list IndexSpec :=
  if existsb (spec_eqb spec) ixs then ixs else ixs ++ [spec].

Definition cond_field (c : Cond) : string :=
  match c with
  | TitleEq _ => "title"
  | AuthorEq _ => "author"
  | InStockEq _ => "in_stock"
  | PublishedYearGt _ => "published_year"
  end.

Definition is_equality (c : Cond) : bool :=
  match c with PublishedYearGt _ => false | _ => true end.

(** An index serves a filter when its leading field is fixed by an
    equality of the filter. *)
Definition serves (f : Filter) (spec : IndexSpec) : option Cond :=
  match spec with
  | [] => None
  | (fld, _) :: _ =>
      List.find (fun c => is_equality c && String.eqb (cond_field c) fld) f
  end.

Fixpoint usable_index (f : Filter) (ixs : list IndexSpec) : option Cond :=
  match ixs with
  | [] => None
  | spec :: r =>
      match serves f spec with
      | Some c => Some c
      | None => usable_index f r
      end
  end.

Record ExecutionStats := mkExecutionStats {
  totalDocsExamined : Z;
  executionTimeMillis : Z
}.

Record WinningPlan := mkWinningPlan { stage : string }.
Record QueryPlanner := mkQueryPlanner { winningPlan : WinningPlan }.

Record Explain := mkExplain {
  executionStats : ExecutionStats;
  queryPlanner : QueryPlanner
}.

(** A collection scan examines every document; an index scan followed by
    a fetch examines the documents the index bounds select. *)
Definition explain (f : Filter) (c : Collection) (ixs : list IndexSpec)
           (millis : Z) : Explain :=
  match usable_index f ixs with
  | None =>
      mkExplain (mkExecutionStats (Z.of_nat (List.length c)) millis)
                (mkQueryPlanner (mkWinningPlan "COLLSCAN"))
  | Some k =>
      mkExplain
        (mkExecutionStats (Z.of_nat (List.length (filter (holds k) c))) millis)
        (mkQueryPlanner (mkWinningPlan "FETCH"))
  end.

End Mongo.

(** ** The asynchronous layer *)

(** What goes over the connection. *)
Inductive Call :=
| Connect
| Close
| FindCall (cur : Mongo.FindCursor)
| UpdateOneCall (f : Mongo.Filter) (p : Q)
| DeleteOneCall (f : Mongo.Filter)
| AggregateCall {k v : Mongo.Ty} (pipeline : Mongo.Pipeline k v)
| CreateIndexCall (spec : Mongo.IndexSpec)
| DropIndexesCall
| ExplainCall (f : Mongo.Filter).

Inductive Err := ServerError (c : Call).

(** What the server does with a call: it rejects it, or it answers after
    so many milliseconds. *)
Inductive Reply := Rejects | Takes (millis : Z).

Inductive Value :=
| Str (s : string)
| Int (z : Z)
| Docs (l : list Book)
| Rows (l : list Mongo.Document)
| GenreRows (l : list (Mongo.Group string Q))
| AuthorRows (l : list (Mongo.Group string Z))
| DecadeRows (l : list (Mongo.Group Z Z))
| Failure (e : Err).

Inductive Line :=
| Log (args : list Value)
| Table (v : Value)
| Error (args : list Value).

Inductive ClientState := Idle | Connected | Closed.

(** The world of a run: the books collection in natural order, its
    secondary indexes, the state of the one client, the lines printed so
    far, the calls sent so far, and what the server will reply to the calls
    to come. *)
Record World := mkWorld {
  collection : Mongo.Collection;
  indexes : list Mongo.IndexSpec;
  connection : ClientState;
  console : list Line;
  wire : list Call;
  replies : list Reply
}.

Inductive Outcome (A : Type) :=
| Returned (a : A)
| Thrown (e : Err).
Arguments Returned {A}.
Arguments Thrown {A}.

Definition Async (A : Type) := World -> Outcome A * World.

Definition ret {A} (a : A) : Async A := fun w => (Returned a, w).

Definition throw {A} (e : Err) : Async A := fun w => (Thrown e, w).

Definition bind {A B} (m : Async A) (k : A -> Async B) : Async B :=
  fun w =>
    match m w with
    | (Returned a, w') => k a w'
    | (Thrown e, w') => (Thrown e, w')
    end.

Declare Scope async_scope.
Delimit Scope async_scope with async.
Notation "x <- m ;; k" := (bind m (fun x => k))
  (at level 61, m at next level, right associativity) : async_scope.
Notation "m ;; k" := (bind m (fun _ => k))
  (at level 61, right associativity) : async_scope.
Open Scope async_scope.

(** [try { body } catch (err) { handler } finally { final }]: the finally
    block runs on every path, and an exception it throws replaces the
    completion of the try and catch blocks. *)
Definition try_catch_finally (body : Async unit) (handler : Err -> Async unit)
           (final : Async unit) : Async unit :=
  fun w =>
    let (r1, w1) := body w in
    let (r2, w2) := match r1 with
                    | Returned _ => (Returned tt, w1)
                    | Thrown e => handler e w1
                    end in
    let (r3, w3) := final w2 in
    match r3 with
    | Returned _ => (r2, w3)
    | Thrown e => (Thrown e, w3)
    end.

(** [promise.catch(handler)] *)
Definition catch (m : Async unit) (handler : Err -> Async unit) : Async unit :=
  fun w =>
    match m w with
    | (Returned _, w') => (Returned tt, w')
    | (Thrown e, w') => handler e w'
    end.

Definition get {A} (field : World -> A) : Async A :=
  fun w => (Returned (field w), w).

Definition set_collection (c : Mongo.Collection) : Async unit :=
  fun w => (Returned tt,
            mkWorld c (indexes w) (connection w) (console w) (wire w)
                    (replies w)).

Definition set_indexes (ixs : list Mongo.IndexSpec) : Async unit :=
  fun w => (Returned tt,
            mkWorld (collection w) ixs (connection w) (console w) (wire w)
                    (replies w)).

Definition set_client (s : ClientState) : Async unit :=
  fun w => (Returned tt,
            mkWorld (collection w) (indexes w) s (console w) (wire w)
                    (replies w)).

Definition print (l : Line) : Async unit :=
  fun w => (Returned tt,
            mkWorld (collection w) (indexes w) (connection w) (console w ++ [l])
                    (wire w) (replies w)).

(** One round trip: the call is sent, the next reply of the server is
    consumed; a server with no scripted reply left answers at once. *)
Definition request (c : Call) : Async Z :=
  fun w =>
    let w' := mkWorld (collection w) (indexes w) (connection w) (console w)
                      (wire w ++ [c]) (tl (replies w)) in
    match replies w with
    | Rejects :: _ => (Thrown (ServerError c), w')
    | Takes millis :: _ => (Returned millis, w')
    | [] => (Returned 0, w')
    end.

(** ** The driver's methods, as the program awaits them *)

Module client.

Definition connect : Async unit :=
  _ <- request Connect ;; set_client Connected.

Definition close : Async unit :=
  _ <- request Close ;; set_client Closed.

End client.

Module books.

Definition find (f : Mongo.Filter) : Mongo.FindCursor :=
  Mongo.mkFindCursor f None None 0 0.

(** [find(filter, { projection })] *)
Definition find_with (f : Mongo.Filter) (projection : Mongo.ProjectionDoc)
  : Mongo.FindCursor :=
  Mongo.mkFindCursor f (Some projection) None 0 0.

Definition sort (s : Mongo.SortDoc) (cur : Mongo.FindCursor)
  : Mongo.FindCursor :=
  Mongo.mkFindCursor (Mongo.c_filter cur) (Mongo.c_projection cur) (Some s)
                     (Mongo.c_skip cur) (Mongo.c_limit cur).

Definition skip (n : Z) (cur : Mongo.FindCursor) : Mongo.FindCursor :=
  Mongo.mkFindCursor (Mongo.c_filter cur) (Mongo.c_projection cur)
                     (Mongo.c_sort cur) n (Mongo.c_limit cur).

Definition limit (n : Z) (cur : Mongo.FindCursor) : Mongo.FindCursor :=
  Mongo.mkFindCursor (Mongo.c_filter cur) (Mongo.c_projection cur)
                     (Mongo.c_sort cur) (Mongo.c_skip cur) n.

Definition toArray (cur : Mongo.FindCursor)
  : Async (list (Mongo.result_of (Mongo.c_projection cur))) :=
  _ <- request (FindCall cur) ;;
  c <- get collection ;;
  match Mongo.execute cur c with
  | Some docs => ret docs
  | None => throw (ServerError (FindCall cur))
  end.

Definition updateOne (f : Mongo.Filter) (p : Q) : Async Mongo.UpdateResult :=
  _ <- request (UpdateOneCall f p) ;;
  c <- get collection ;;
  let (result, c') := Mongo.updateOne_set_price f p c in
  _ <- set_collection c' ;;
  ret result.

Definition deleteOne (f : Mongo.Filter) : Async Mongo.DeleteResult :=
  _ <- request (DeleteOneCall f) ;;
  c <- get collection ;;
  let (result, c') := Mongo.deleteOne f c in
  _ <- set_collection c' ;;
  ret result.

Definition aggregate {k v : Mongo.Ty} (pipeline : Mongo.Pipeline k v)
  : Async (list (Mongo.Group (Mongo.value k) (Mongo.value v))) :=
  _ <- request (AggregateCall pipeline) ;;
  c <- get collection ;;
  ret (Mongo.aggregate pipeline c).

Definition createIndex (spec : Mongo.IndexSpec) : Async string :=
  _ <- request (CreateIndexCall spec) ;;
  ixs <- get indexes ;;
  _ <- set_indexes (Mongo.createIndex spec ixs) ;;
  ret (Mongo.index_name spec).

Definition dropIndexes : Async unit :=
  _ <- request DropIndexesCall ;;
  set_indexes [].

Definition explain (cur : Mongo.FindCursor) : Async Mongo.Explain :=
  millis <- request (ExplainCall (Mongo.c_filter cur)) ;;
  c <- get collection ;;
  ixs <- get indexes ;;
  ret (Mongo.explain (Mongo.c_filter cur) c ixs millis).

End books.

(** ** queries.js

    The collection handle [books] that every function of the source takes
    is the one collection of the [World]. *)

Definition nl : string := String "010" EmptyString.
Definition dquote : string := String "034" EmptyString.
(** [${n}] in a template literal, for an integer [n]. *)
Definition show (z : Z) : string := Number.toString z.

Definition console_log (args : list Value) : Async unit := print (Log args).
Definition console_table (v : Value) : Async unit := print (Table v).
Definition console_error (args : list Value) : Async unit := print (Error args).

(** The value of a parameter with a default: [None] is an omitted
    argument. *)
Definition or_default {A} (d : A) (arg : option A) : A :=
  match arg with Some a => a | None => d end.

(** *** Task 2: basic CRUD operations *)

Definition findAllBooks : Async unit :=
  allBooks <- books.toArray (books.find []) ;;
  console_log [Str (nl ++ "All Books:")] ;;
  console_log [Docs allBooks].

Definition findAfterYear (year : Z) : Async unit :=
  result <- books.toArray (books.find [Mongo.PublishedYearGt year]) ;;
  console_log [Str (nl ++ "Books published after " ++ show year ++ ":")] ;;
  console_log [Docs result].

Definition findByAuthor (authorName : string) : Async unit :=
  result <- books.toArray (books.find [Mongo.AuthorEq authorName]) ;;
  console_log [Str (nl ++ "Books by " ++ authorName ++ ":")] ;;
  console_log [Docs result].

Definition updateBookPrice (title : string) (newPrice : Q) : Async unit :=
  result <- books.updateOne [Mongo.TitleEq title] newPrice ;;
  console_log
    [Str (nl ++ "Updated price for " ++ dquote ++ title ++ dquote ++ " →");
     Str (if Mongo.modifiedCount result =? 0 then "No match found"
          else "Success")].

Definition deleteBookByTitle (title : string) : Async unit :=
  result <- books.deleteOne [Mongo.TitleEq title] ;;
  console_log
    [Str (nl ++ "Deleted " ++ dquote ++ title ++ dquote ++ " →");
     Str (if Mongo.deletedCount result =? 0 then "No match found"
          else "Success")].

(** *** Task 3: advanced queries *)

Definition findInStockAfter2010 : Async unit :=
  results <- books.toArray
               (books.find [Mongo.InStockEq true;
                            Mongo.PublishedYearGt 2010]) ;;
  console_log [Str (nl ++ "📘 Books in stock and published after 2010:")] ;;
  console_log [Docs results].

Definition projectTitleAuthorPrice : Async unit :=
  results <- books.toArray
               (books.find_with []
                  [("title", 1); ("author", 1); ("price", 1); ("_id", 0)]) ;;
  console_log [Str (nl ++ "🎯 Books (Title, Author, Price only):")] ;;
  console_log [Rows results].

Definition sortByPrice (order : option string) : Async unit :=
  let order := or_default "asc" order in
  let sortOrder := if String.eqb order "asc" then 1 else -1 in
  results <- books.toArray
               (books.sort (Mongo.ByPrice sortOrder) (books.find [])) ;;
  console_log [Str (nl ++ "💰 Books sorted by price (" ++ order ++ "):")] ;;
  console_log [Docs results].

Definition paginateBooks (page pageSize : option Z) : Async unit :=
  let page := or_default 1 page in
  let pageSize := or_default 5 pageSize in
  let skip := Number.mul (Number.sub page 1) pageSize in
  results <- books.toArray
               (books.limit pageSize (books.skip skip (books.find []))) ;;
  console_log [Str (nl ++ "📄 Page " ++ show page ++ " (showing "
                       ++ show pageSize ++ " books):")] ;;
  console_log [Docs results].

(** *** Task 4: aggregation pipelines *)

Definition totalBooks {K} (g : Mongo.Group K Z) : Z := Mongo.acc g.

Definition averagePriceByGenre_pipeline
  : Mongo.Pipeline Mongo.TString Mongo.TNumber :=
  Mongo.mkPipeline
    (Mongo.mkGroupStage Mongo.Path_genre "averagePrice"
                        (Mongo.Avg Mongo.Path_price))
    [Mongo.SortStage "averagePrice" (-1)].

Definition averagePriceByGenre : Async unit :=
  result <- books.aggregate averagePriceByGenre_pipeline ;;
  console_log [Str (nl ++ "Average Price by Genre:")] ;;
  console_table (GenreRows result).

Definition authorWithMostBooks_pipeline
  : Mongo.Pipeline Mongo.TString Mongo.TInteger :=
  Mongo.mkPipeline
    (Mongo.mkGroupStage Mongo.Path_author "totalBooks"
                        (Mongo.Sum (Mongo.Literal 1)))
    [Mongo.SortStage "totalBooks" (-1); Mongo.LimitStage 1].

Definition authorWithMostBooks : Async unit :=
  result <- books.aggregate authorWithMostBooks_pipeline ;;
  console_log [Str (nl ++ "Author with the Most Books:")] ;;
  console_table (AuthorRows result).

(** What the group key of booksByDecade yields for a document:
    [$subtract] of the year and its [$mod] by 10, the remainder taking the
    sign of the year. *)
Definition decade (b : Book) : Z :=
  published_year b - Z.rem (published_year b) 10.

Definition booksByDecade_pipeline
  : Mongo.Pipeline Mongo.TInteger Mongo.TInteger :=
  Mongo.mkPipeline
    (Mongo.mkGroupStage
       (Mongo.Subtract Mongo.Path_published_year
                       (Mongo.Mod Mongo.Path_published_year
                                  (Mongo.Literal 10)))
       "totalBooks"
       (Mongo.Sum (Mongo.Literal 1)))
    [Mongo.SortStage "_id" 1].

Definition booksByDecade : Async unit :=
  result <- books.aggregate booksByDecade_pipeline ;;
  console_log [Str (nl ++ "Books Grouped by Publication Decade:")] ;;
  console_table (DecadeRows result).

(** *** Task 5: indexing *)

Definition createTitleIndex : Async unit :=
  result <- books.createIndex [("title", 1)] ;;
  console_log [Str (nl ++ "Created Index:"); Str result].

Definition createCompoundIndex : Async unit :=
  result <- books.createIndex [("author", 1); ("published_year", -1)] ;;
  console_log [Str "Created Compound Index:"; Str result].

Definition analyzeIndexPerformance : Async unit :=
  let query := [Mongo.TitleEq "1984"] in
  books.dropIndexes ;;
  before <- books.explain (books.find query) ;;
  console_log
    [Str (nl ++ "Before Index: Total Docs Examined =");
     Int (Mongo.totalDocsExamined (Mongo.executionStats before))] ;;
  console_log
    [Str "Before Index: Execution Time =";
     Int (Mongo.executionTimeMillis (Mongo.executionStats before));
     Str "ms"] ;;
  _ <- books.createIndex [("title", 1)] ;;
  after <- books.explain (books.find query) ;;
  console_log
    [Str "After Index: Total Docs Examined =";
     Int (Mongo.totalDocsExamined (Mongo.executionStats after))] ;;
  console_log
    [Str "After Index: Execution Time =";
     Int (Mongo.executionTimeMillis (Mongo.executionStats after));
     Str "ms"] ;;
  console_log
    [Str "Winning Plan:";
     Str (Mongo.stage (Mongo.winningPlan (Mongo.queryPlanner after)))].

(** *** run

    The literal 7.99 of the source is the double nearest to 7.99. *)

Definition run_body : Async unit :=
  client.connect ;;
  console_log [Str (nl ++ "Connected to plp_bookstore database ✅")] ;;
  findAllBooks ;;
  findAfterYear 1959 ;;
  findByAuthor "George Orwell" ;;
  updateBookPrice "Wuthering Heights" (Double.round 7.99) ;;
  deleteBookByTitle "Moby Dick" ;;
  findInStockAfter2010 ;;
  projectTitleAuthorPrice ;;
  sortByPrice (Some "asc") ;;
  paginateBooks (Some 1) (Some 5) ;;
  averagePriceByGenre ;;
  authorWithMostBooks ;;
  booksByDecade ;;
  createTitleIndex ;;
  createCompoundIndex ;;
  analyzeIndexPerformance.

Definition run : Async unit :=
  try_catch_finally
    run_body
    (fun err => console_error [Str "Error occurred:"; Failure err])
    (client.close ;;
     console_log [Str (nl ++ "MongoDB connection closed 💤")]).

Definition main : Async unit :=
  catch run (fun err => console_error [Failure err]).

(** ** Observing a run *)

(** The server answers the next call. *)
Definition accepted (w : World) : bool :=
  match replies w with
  | Rejects :: _ => false
  | _ => true
  end.

(** The time the server takes for the next call. *)
Definition next_millis (w : World) : Z :=
  match replies w with
  | Takes millis :: _ => millis
  | _ => 0
  end.

(** The world after a call has been sent, after lines have been printed,
    and after the collection has been replaced. *)
Definition sent (c : Call) (w : World) : World :=
  mkWorld (collection w) (indexes w) (connection w) (console w)
          (wire w ++ [c]) (tl (replies w)).

Definition printed (lines : list Line) (w : World) : World :=
  mkWorld (collection w) (indexes w) (connection w) (console w ++ lines)
          (wire w) (replies w).

Definition stored (c : Mongo.Collection) (w : World) : World :=
  mkWorld c (indexes w) (connection w) (console w) (wire w) (replies w).

(** The world after the connection call and after the close call have been
    answered. *)
Definition opened (w : World) : World :=
  mkWorld (collection w) (indexes w) Connected (console w)
          (wire w ++ [Connect]) (tl (replies w)).

Definition closed (w : World) : World :=
  mkWorld (collection w) (indexes w) Closed (console w)
          (wire w ++ [Close]) (tl (replies w)).

(** A connected world with the given collection, nothing printed, nothing
    sent, and a server that answers every call. *)
Definition quiet (c : Mongo.Collection) : World :=
  mkWorld c [] Connected [] [] [].

(** The server answers the next [n] calls. *)
Fixpoint all_accepted (n : nat) (rs : list Reply) : bool :=
  match n, rs with
  | O, _ => true
  | S _, [] => true
  | S _, Rejects :: _ => false
  | S n', Takes _ :: r => all_accepted n' r
  end.

(** The time the server takes for its [n]-th next call. *)
Definition millis_at (n : nat) (rs : list Reply) : Z :=
  match nth n rs (Takes 0) with
  | Takes millis => millis
  | Rejects => 0
  end.

(** The calls that are queries on the collection: all but [Connect] and
    [Close]. *)
Definition is_query (c : Call) : bool :=
  match c with
  | Connect | Close => false
  | _ => true
  end.

(** A computation that only queries: on every path it sends queries and
    nothing else, it only adds lines to the console, and it leaves the
    state of the connection alone. *)
Definition queries_only {A} (m : Async A) : Prop :=
  forall w, exists qs lines,
    wire (snd (m w)) = (wire w ++ qs)%list
    /\ Forall (fun c => is_query c = true) qs
    /\ console (snd (m w)) = (console w ++ lines)%list
    /\ connection (snd (m w)) = connection w.

(** A relation between the world before and the world after that a
    computation keeps on every path, returning or throwing. *)
Definition keeps {A} (R : World -> World -> Prop) (m : Async A) : Prop :=
  forall w, R w (snd (m w)).

(** The data of the server is as before. *)
Definition same_data (w w' : World) : Prop :=
  collection w' = collection w /\ indexes w' = indexes w.

(** The fields of a document other than its price. *)
Definition but_price (b : Book) : string * string * string * Z * bool :=
  (title b, author b, genre b, published_year b, in_stock b).

(** The world with its indexes replaced. *)
Definition indexed (ixs : list Mongo.IndexSpec) (w : World) : World :=
  mkWorld (collection w) ixs (connection w) (console w) (wire w) (replies w).

(** A computation that, once the server answers the calls [cs] it sends,
    returns having sent them in that order, with the collection and the
    indexes changed by [fc] and [fi] and the connection as it was. *)
Definition completes {A} (cs : list Call)
           (fc : Mongo.Collection -> Mongo.Collection)
           (fi : list Mongo.IndexSpec -> list Mongo.IndexSpec)
           (m : Async A) : Prop :=
  forall w,
    all_accepted (List.length cs) (replies w) = true ->
    (exists a, fst (m w) = Returned a)
    /\ wire (snd (m w)) = (wire w ++ cs)%list
    /\ replies (snd (m w)) = skipn (List.length cs) (replies w)
    /\ collection (snd (m w)) = fc (collection w)
    /\ indexes (snd (m w)) = fi (indexes w)
    /\ connection (snd (m w)) = connection w.

(** A computation whose exception, when it throws one, is the error of the
    last call it sent. *)
Definition blames_last_call {A} (m : Async A) : Prop :=
  forall w e,
    fst (m w) = Thrown e ->
    exists pre c,
      e = ServerError c /\ wire (snd (m w)) = (wire w ++ pre ++ [c])%list.




(** Sample documents. *)
Definition book_a : Book := mkBook "Book A" "Ann" "Fiction" 1955 10 true.
Definition book_b : Book := mkBook "Book B" "Bob" "Fiction" 1959 20 false.
Definition moby_dick : Book :=
  mkBook "Moby Dick" "Herman Melville" "Adventure" 1851 12.5 false.
Definition shelf : Mongo.Collection := [book_a; book_b; moby_dick].


(** A shelf whose server answers dropIndexes in 1 ms, the first explain in
    7 ms, createIndex in 4 ms and the second explain in 2 ms; and a client
    not yet connected, whose server rejects the third call it gets. *)
Definition timed_shelf : World :=
  mkWorld shelf [] Connected [] [] [Takes 1; Takes 7; Takes 4; Takes 2].

Definition failing_shelf : World :=
  mkWorld shelf [] Idle [] [] [Takes 3; Takes 1; Rejects].


(** * Properties *)

(** ** The sort of the server *)

Section SortFacts.
Context {A : Type} (leb : A -> A -> bool).
Hypothesis leb_total : forall a b, leb a b = true \/ leb b a = true.
Hypothesis leb_trans :
  forall a b c, leb a b = true -> leb b c = true -> leb a c = true.

Let le (a b : A) : Prop := leb a b = true.

Lemma insert_sorted_perm (x : A) (l : list A) :
  Permutation (Mongo.insert_sorted leb x l) (x :: l).
Proof.
  induction l as [|y r IH]; simpl.
  - apply Permutation_refl.
  - destruct (leb x y).
    + apply Permutation_refl.
    + eapply perm_trans; [apply perm_skip, IH | apply perm_swap].
Qed.

Lemma isort_perm (l : list A) : Permutation (Mongo.isort leb l) l.
Proof.
  induction l as [|x r IH]; simpl.
  - constructor.
  - eapply perm_trans; [apply insert_sorted_perm | apply perm_skip, IH].
Qed.

Lemma insert_sorted_hd (z x : A) (l : list A) :
  le z x -> HdRel le z l -> HdRel le z (Mongo.insert_sorted leb x l).
Proof.
  intros Hzx Hzl. destruct l as [|y r]; simpl.
  - constructor. exact Hzx.
  - destruct (leb x y); constructor.
    + exact Hzx.
    + inversion Hzl; assumption.
Qed.

Lemma insert_sorted_sorted (x : A) (l : list A) :
  Sorted le l -> Sorted le (Mongo.insert_sorted leb x l).
Proof.
  induction 1 as [|y r Hr IH Hy]; simpl.
  - repeat constructor.
  - destruct (leb x y) eqn:E.
    + constructor; [constructor; assumption | constructor; exact E].
    + constructor; [exact IH |].
      apply insert_sorted_hd; [| exact Hy].
      destruct (leb_total x y) as [H|H]; [congruence | exact H].
Qed.

Lemma isort_sorted (l : list A) : Sorted le (Mongo.isort leb l).
Proof.
  induction l as [|x r IH]; simpl.
  - constructor.
  - apply insert_sorted_sorted, IH.
Qed.

Lemma isort_strongly_sorted (l : list A) :
  StronglySorted le (Mongo.isort leb l).
Proof.
  apply Sorted_StronglySorted; [| apply isort_sorted].
  intros a b c. apply leb_trans.
Qed.

End SortFacts.

Lemma Qle_bool_total (a b : Q) : Qle_bool a b = true \/ Qle_bool b a = true.
Proof.
  rewrite !Qle_bool_iff.
  destruct (Qlt_le_dec a b) as [H|H];
    [left; apply Qlt_le_weak, H | right; exact H].
Qed.

Lemma Qle_bool_trans (a b c : Q) :
  Qle_bool a b = true -> Qle_bool b c = true -> Qle_bool a c = true.
Proof. rewrite !Qle_bool_iff. apply Qle_trans. Qed.

Lemma Zleb_total (a b : Z) : (a <=? b) = true \/ (b <=? a) = true.
Proof. rewrite !Z.leb_le. lia. Qed.

Lemma Zleb_trans (a b c : Z) :
  (a <=? b) = true -> (b <=? c) = true -> (a <=? c) = true.
Proof. rewrite !Z.leb_le. lia. Qed.

(** [Mongo.sort] returns a permutation of its input in which the keys are in
    the order of the direction. *)
Section SortByKey.
Context {A K : Type} (key : A -> K) (leb : K -> K -> bool).
Hypothesis leb_total : forall a b, leb a b = true \/ leb b a = true.
Hypothesis leb_trans :
  forall a b c, leb a b = true -> leb b c = true -> leb a c = true.

Lemma sort_perm (d : Z) (l : list A) :
  Permutation (Mongo.sort key leb d l) l.
Proof. apply isort_perm. Qed.

Lemma sort_ascending (d : Z) (l : list A) :
  0 < d ->
  StronglySorted (fun a b => leb (key a) (key b) = true)
                 (Mongo.sort key leb d l).
Proof.
  intros Hd. unfold Mongo.sort, Mongo.directed.
  replace (0 <? d) with true by (symmetry; apply Z.ltb_lt, Hd).
  apply isort_strongly_sorted.
  - intros a b. apply leb_total.
  - intros a b c. apply leb_trans.
Qed.

Lemma sort_descending (d : Z) (l : list A) :
  d <= 0 ->
  StronglySorted (fun a b => leb (key b) (key a) = true)
                 (Mongo.sort key leb d l).
Proof.
  intros Hd. unfold Mongo.sort, Mongo.directed.
  replace (0 <? d) with false by (symmetry; apply Z.ltb_ge, Hd).
  apply (isort_strongly_sorted (fun a b => leb (key b) (key a))).
  - intros a b. apply leb_total.
  - intros a b c H1 H2. exact (leb_trans _ _ _ H2 H1).
Qed.

End SortByKey.

(** ** Running one awaited call *)

Lemma request_accepted (c : Call) (w : World) :
  accepted w = true -> request c w = (Returned (next_millis w), sent c w).
Proof.
  unfold accepted, request, next_millis, sent.
  destruct (replies w) as [|[|millis] rs]; intros H;
    [reflexivity | discriminate | reflexivity].
Qed.

Lemma request_rejected (c : Call) (w : World) :
  accepted w = false -> request c w = (Thrown (ServerError c), sent c w).
Proof.
  unfold accepted, request, sent.
  destruct (replies w) as [|[|millis] rs]; intros H;
    [discriminate | reflexivity | discriminate].
Qed.

Lemma printed_twice (l1 l2 : list Line) (w : World) :
  printed l2 (printed l1 w) = printed (l1 ++ l2) w.
Proof. unfold printed. simpl. rewrite <- app_assoc. reflexivity. Qed.

Lemma console_log_prints (args : list Value) (w : World) :
  console_log args w = (Returned tt, printed [Log args] w).
Proof. reflexivity. Qed.

Lemma log_twice (args1 args2 : list Value) (w : World) :
  (console_log args1 ;; console_log args2) w
  = (Returned tt, printed [Log args1; Log args2] w).
Proof.
  unfold bind. rewrite !console_log_prints, printed_twice. reflexivity.
Qed.

Lemma log_then_table (args : list Value) (v : Value) (w : World) :
  (console_log args ;; console_table v) w
  = (Returned tt, printed [Log args; Table v] w).
Proof.
  unfold bind. rewrite console_log_prints. unfold console_table, print.
  simpl. unfold printed. rewrite <- app_assoc. reflexivity.
Qed.

Lemma StronglySorted_weaken {A} (P R : A -> A -> Prop) (l : list A) :
  (forall a b, P a b -> R a b) -> StronglySorted P l -> StronglySorted R l.
Proof.
  intros HPR. induction 1 as [|a l Hl IH Ha]; constructor.
  - exact IH.
  - eapply Forall_impl; [| exact Ha]. intros b. apply HPR.
Qed.

Lemma toArray_accepted (cur : Mongo.FindCursor)
      (docs : list (Mongo.result_of (Mongo.c_projection cur))) (w : World) :
  accepted w = true ->
  Mongo.execute cur (collection w) = Some docs ->
  books.toArray cur w = (Returned docs, sent (FindCall cur) w).
Proof.
  intros Hacc Hex. unfold books.toArray, bind.
  rewrite (request_accepted _ _ Hacc). unfold get. simpl.
  rewrite Hex. reflexivity.
Qed.

Lemma find_all (c : Mongo.Collection) : Mongo.find [] c = c.
Proof.
  unfold Mongo.find. induction c as [|b r IH]; simpl; [reflexivity|].
  f_equal. exact IH.
Qed.

(** ** sortByPrice *)

(** C1. With the flag "asc" (or no flag) sortByPrice prints all documents
    of the collection in non-decreasing order of price; with any other flag
    it prints them all in non-increasing order of price. *)
Theorem sortByPrice_orders_by_price (order : option string) (w : World) :
  accepted w = true ->
  exists cur results,
    sortByPrice order w
    = (Returned tt,
       printed [Log [Str (nl ++ "💰 Books sorted by price ("
                             ++ or_default "asc" order ++ "):")];
                Log [Docs results]]
               (sent (FindCall cur) w))
    /\ Permutation results (collection w)
    /\ (or_default "asc" order = "asc" ->
        StronglySorted (fun a b => (price a <= price b)%Q) results)
    /\ (or_default "asc" order <> "asc" ->
        StronglySorted (fun a b => (price b <= price a)%Q) results).
Proof.
  intros Hacc.
  set (o := or_default "asc" order).
  set (d := if String.eqb o "asc" then 1 else -1).
  set (cur := books.sort (Mongo.ByPrice d) (books.find [])).
  set (results := Mongo.sort price Qle_bool d (collection w)).
  assert (Hex : Mongo.execute cur (collection w) = Some results).
  { unfold Mongo.execute, cur. simpl. rewrite find_all. reflexivity. }
  exists cur, results. split; [| split; [| split]].
  - unfold sortByPrice. fold o. fold d. fold cur. unfold bind at 1.
    rewrite (toArray_accepted _ _ _ Hacc Hex). apply log_twice.
  - apply sort_perm.
  - intros Ho. unfold results, d. rewrite Ho. simpl.
    eapply StronglySorted_weaken;
      [| apply (sort_ascending price Qle_bool Qle_bool_total Qle_bool_trans);
         lia].
    intros a b. apply Qle_bool_imp_le.
  - intros Ho. unfold results, d.
    destruct (String.eqb_spec o "asc") as [E|E]; [contradiction|].
    eapply StronglySorted_weaken;
      [| apply (sort_descending price Qle_bool Qle_bool_total Qle_bool_trans);
         lia].
    intros a b. apply Qle_bool_imp_le.
Qed.

Lemma sortByPrice_orders_by_price_witness :
  accepted (quiet shelf) = true
  /\ exists cur results,
       sortByPrice (Some "desc") (quiet shelf)
       = (Returned tt,
          printed [Log [Str (nl ++ "💰 Books sorted by price (desc):")];
                   Log [Docs results]]
                  (sent (FindCall cur) (quiet shelf)))
       /\ Permutation results shelf.
Proof.
  split; [reflexivity |].
  destruct (sortByPrice_orders_by_price (Some "desc") (quiet shelf)
              eq_refl) as (cur & results & Hrun & Hperm & _).
  exists cur, results. split; [exact Hrun | exact Hperm].
Defined.

(** ** paginateBooks *)

Lemma limited_positive {A} (n : Z) (l : list A) :
  1 <= n -> Mongo.limited n l = firstn (Z.to_nat n) l.
Proof.
  intros Hn. unfold Mongo.limited.
  destruct (Z.eqb_spec n 0) as [E|E]; [lia|].
  rewrite Z.abs_eq by lia. reflexivity.
Qed.

Lemma skipped_nonnegative {A} (n : Z) (l : list A) :
  0 <= n -> Mongo.skipped n l = Some (skipn (Z.to_nat n) l).
Proof.
  intros Hn. unfold Mongo.skipped.
  destruct (Z.ltb_spec n 0) as [E|E]; [lia | reflexivity].
Qed.

(** C2, as stated, fails for a page size of 0: the server takes a limit of
    0 as no limit, and page 1 of size 0 of a shelf of three books holds the
    three books. *)
Lemma paginateBooks_page_size_zero :
  exists cur results,
    paginateBooks (Some 1) (Some 0) (quiet shelf)
    = (Returned tt,
       printed [Log [Str (nl ++ "📄 Page 1 (showing 0 books):")];
                Log [Docs results]]
               (sent (FindCall cur) (quiet shelf)))
    /\ results = shelf
    /\ ~ (Z.of_nat (List.length results) <= 0).
Proof.
  exists (books.limit 0 (books.skip 0 (books.find []))), shelf.
  split; [reflexivity | split; [reflexivity |]].
  simpl. lia.
Qed.

Ltac bounds := change (2 ^ 53) with 9007199254740992 in *; lia.

(** The arithmetic of the source is exact on integers up to 2^53. *)
Lemma of_Z_exact (z : Z) : Z.abs z <= 2 ^ 53 -> Number.of_Z z = z.
Proof.
  intros Hz. unfold Number.of_Z.
  destruct (Z.leb_spec (Z.abs z) (2 ^ 53)) as [_|H]; [reflexivity | lia].
Qed.

Lemma offset_exact (page pageSize : Z) :
  Z.abs page <= 2 ^ 53 ->
  Z.abs ((page - 1) * pageSize) <= 2 ^ 53 ->
  Number.mul (Number.sub page 1) pageSize = (page - 1) * pageSize.
Proof.
  intros Hpage Hoff. unfold Number.mul, Number.sub.
  destruct (Z.eq_dec page (- 2 ^ 53)) as [E | E].
  - subst page. destruct (Z.eq_dec pageSize 0) as [-> | Hn].
    + reflexivity.
    + exfalso. bounds.
  - rewrite (of_Z_exact (page - 1)) by bounds. apply of_Z_exact. exact Hoff.
Qed.

(** Beyond 2^53 the offset is rounded: page 94906268 of size 94906267
    starts at 9007199515875288, not at 9007199515875289. *)
Example offset_rounded :
  Number.mul (Number.sub 94906268 1) 94906267 = 9007199515875288
  /\ (94906268 - 1) * 94906267 = 9007199515875289.
Proof. split; reflexivity. Qed.

(** C2, amended. For 1 <= page, 0 <= pageSize and page, pageSize and
    (page-1)*pageSize up to 2^53, where the arithmetic of the source is
    exact, paginateBooks sends skip (page-1)*pageSize and limit pageSize;
    for pageSize >= 1 it prints the at most pageSize documents that start
    at offset (page-1)*pageSize of the collection, and for pageSize = 0 it
    prints the whole collection. *)
Theorem paginateBooks_page (page pageSize : Z) (w : World) :
  1 <= page <= 2 ^ 53 ->
  0 <= pageSize <= 2 ^ 53 ->
  (page - 1) * pageSize <= 2 ^ 53 ->
  accepted w = true ->
  exists cur results,
    paginateBooks (Some page) (Some pageSize) w
    = (Returned tt,
       printed [Log [Str (nl ++ "📄 Page " ++ show page ++ " (showing "
                             ++ show pageSize ++ " books):")];
                Log [Docs results]]
               (sent (FindCall cur) w))
    /\ Mongo.c_skip cur = (page - 1) * pageSize
    /\ Mongo.c_limit cur = pageSize
    /\ (1 <= pageSize ->
        results = firstn (Z.to_nat pageSize)
                         (skipn (Z.to_nat ((page - 1) * pageSize))
                                (collection w))
        /\ Z.of_nat (List.length results) <= pageSize)
    /\ (pageSize = 0 -> results = collection w).
Proof.
  intros Hpage Hsize Hbound Hacc.
  set (off := (page - 1) * pageSize).
  set (cur := books.limit pageSize (books.skip off (books.find []))).
  set (results := Mongo.limited pageSize
                    (skipn (Z.to_nat off) (collection w))).
  assert (Hoff : 0 <= off) by (unfold off; nia).
  assert (Hex : Mongo.execute cur (collection w) = Some results).
  { unfold Mongo.execute, cur. simpl. rewrite find_all.
    rewrite (skipped_nonnegative _ _ Hoff). reflexivity. }
  exists cur, results. repeat split.
  - unfold paginateBooks. simpl or_default.
    rewrite (offset_exact page pageSize) by (fold off; bounds).
    fold off. fold cur.
    unfold bind at 1. rewrite (toArray_accepted _ _ _ Hacc Hex).
    apply log_twice.
  - unfold results. rewrite limited_positive by assumption. reflexivity.
  - unfold results. rewrite limited_positive by assumption.
    pose proof (firstn_le_length (Z.to_nat pageSize)
                  (skipn (Z.to_nat off) (collection w))).
    lia.
  - intros ->. unfold results, off. rewrite Z.mul_0_r. reflexivity.
Qed.

Lemma paginateBooks_page_witness :
  1 <= 2 <= 2 ^ 53 /\ 0 <= 1 <= 2 ^ 53 /\ (2 - 1) * 1 <= 2 ^ 53
  /\ accepted (quiet shelf) = true
  /\ exists cur results,
       paginateBooks (Some 2) (Some 1) (quiet shelf)
       = (Returned tt,
          printed [Log [Str (nl ++ "📄 Page 2 (showing 1 books):")];
                   Log [Docs results]]
                  (sent (FindCall cur) (quiet shelf)))
       /\ (1 <= 1 -> results = [book_b]).
Proof.
  split; [bounds | split; [bounds | split; [bounds | split;
    [reflexivity |]]]].
  destruct (paginateBooks_page 2 1 (quiet shelf)) as
    (cur & results & Hrun & _ & _ & Hres & _);
    [bounds | bounds | bounds | reflexivity |].
  exists cur, results. split; [exact Hrun |].
  intros H. apply (proj1 (Hres H)).
Defined.

(** ** updateBookPrice and deleteBookByTitle *)

Lemma matches_title (t : string) (b : Book) :
  Mongo.matches [Mongo.TitleEq t] b = String.eqb (title b) t.
Proof. unfold Mongo.matches. simpl. apply andb_true_r. Qed.

Lemma no_title_no_match (t : string) (c : list Book) :
  (forall b, In b c -> title b <> t) ->
  forall b, In b c -> Mongo.matches [Mongo.TitleEq t] b = false.
Proof.
  intros H b Hb. rewrite matches_title. apply String.eqb_neq. exact (H b Hb).
Qed.

Lemma set_price_changes (p : Q) (b : Book) :
  Qeq_bool (price b) p = false -> Mongo.set_price p b <> b.
Proof.
  intros Hne Heq. apply (f_equal price) in Heq. simpl in Heq.
  rewrite <- Heq in Hne. rewrite (proj2 (Qeq_bool_iff p p)) in Hne.
  - discriminate.
  - apply Qeq_refl.
Qed.

Lemma updateOne_no_match (f : Mongo.Filter) (p : Q) (c : Mongo.Collection) :
  (forall b, In b c -> Mongo.matches f b = false) ->
  Mongo.updateOne_set_price f p c = (Mongo.mkUpdateResult 0 0, c).
Proof.
  induction c as [|b r IH]; intros H; simpl; [reflexivity|].
  rewrite (H b (or_introl eq_refl)).
  rewrite IH; [reflexivity |]. intros x Hx. apply H. right. exact Hx.
Qed.

(** The modified count is 0 and the collection is as before, or it is 1 and
    the collection differs. *)
Lemma updateOne_modified (f : Mongo.Filter) (p : Q) (c : Mongo.Collection) :
  forall result c',
    Mongo.updateOne_set_price f p c = (result, c') ->
    (Mongo.modifiedCount result = 0 /\ c' = c)
    \/ (Mongo.modifiedCount result = 1 /\ c' <> c).
Proof.
  induction c as [|b r IH]; simpl; intros result c' H.
  - inversion H; subst. left. split; reflexivity.
  - destruct (Mongo.matches f b).
    + destruct (Qeq_bool (price b) p) eqn:E; inversion H; subst.
      * left. split; reflexivity.
      * right. split; [reflexivity |].
        intros Heq. inversion Heq as [Hb].
        exact (set_price_changes p b E Hb).
    + destruct (Mongo.updateOne_set_price f p r) as [res r'] eqn:Er.
      inversion H; subst.
      destruct (IH result r' eq_refl) as [[H0 Hr]|[H1 Hr]].
      * left. split; [exact H0 | f_equal; exact Hr].
      * right. split; [exact H1 |]. intros Heq. inversion Heq. contradiction.
Qed.

Lemma updateOne_first_match (f : Mongo.Filter) (p : Q)
      (pre : list Book) (b : Book) (post : list Book) :
  (forall x, In x pre -> Mongo.matches f x = false) ->
  Mongo.matches f b = true ->
  Mongo.updateOne_set_price f p (pre ++ b :: post)%list
  = if Qeq_bool (price b) p
    then (Mongo.mkUpdateResult 1 0, (pre ++ b :: post)%list)
    else (Mongo.mkUpdateResult 1 1, (pre ++ Mongo.set_price p b :: post)%list).
Proof.
  intros Hpre Hb. induction pre as [|x pre IH]; simpl.
  - rewrite Hb. destruct (Qeq_bool (price b) p); reflexivity.
  - rewrite (Hpre x (or_introl eq_refl)).
    rewrite IH by (intros y Hy; apply Hpre; right; exact Hy).
    destruct (Qeq_bool (price b) p); reflexivity.
Qed.

Lemma deleteOne_no_match (f : Mongo.Filter) (c : Mongo.Collection) :
  (forall b, In b c -> Mongo.matches f b = false) ->
  Mongo.deleteOne f c = (Mongo.mkDeleteResult 0, c).
Proof.
  induction c as [|b r IH]; intros H; simpl; [reflexivity|].
  rewrite (H b (or_introl eq_refl)).
  rewrite IH; [reflexivity |]. intros x Hx. apply H. right. exact Hx.
Qed.

Lemma deleteOne_first_match (f : Mongo.Filter)
      (pre : list Book) (b : Book) (post : list Book) :
  (forall x, In x pre -> Mongo.matches f x = false) ->
  Mongo.matches f b = true ->
  Mongo.deleteOne f (pre ++ b :: post)%list
  = (Mongo.mkDeleteResult 1, (pre ++ post)%list).
Proof.
  intros Hpre Hb. induction pre as [|x pre IH]; simpl.
  - rewrite Hb. reflexivity.
  - rewrite (Hpre x (or_introl eq_refl)).
    rewrite IH by (intros y Hy; apply Hpre; right; exact Hy). reflexivity.
Qed.

(** The deleted count is 0 and the collection is as before, or it is 1 and
    the collection is one document shorter. *)
Lemma deleteOne_count (f : Mongo.Filter) (c : Mongo.Collection) :
  forall result c',
    Mongo.deleteOne f c = (result, c') ->
    (Mongo.deletedCount result = 0 /\ c' = c)
    \/ (Mongo.deletedCount result = 1
        /\ S (List.length c') = List.length c).
Proof.
  induction c as [|b r IH]; simpl; intros result c' H.
  - inversion H; subst. left. split; reflexivity.
  - destruct (Mongo.matches f b).
    + inversion H; subst. right. split; reflexivity.
    + destruct (Mongo.deleteOne f r) as [res r'] eqn:Er.
      inversion H; subst.
      destruct (IH result r' eq_refl) as [[H0 Hr]|[H1 Hr]].
      * left. split; [exact H0 | f_equal; exact Hr].
      * right. split; [exact H1 | simpl; f_equal; exact Hr].
Qed.

Lemma updateBookPrice_accepted (t : string) (p : Q) (w : World) :
  accepted w = true ->
  forall result c',
    Mongo.updateOne_set_price [Mongo.TitleEq t] p (collection w)
    = (result, c') ->
    updateBookPrice t p w
    = (Returned tt,
       printed [Log [Str (nl ++ "Updated price for " ++ dquote ++ t
                             ++ dquote ++ " →");
                     Str (if Mongo.modifiedCount result =? 0
                          then "No match found" else "Success")]]
               (stored c' (sent (UpdateOneCall [Mongo.TitleEq t] p) w))).
Proof.
  intros Hacc result c' Hup.
  unfold updateBookPrice, books.updateOne, bind.
  rewrite (request_accepted _ _ Hacc). unfold get.
  change (collection (sent (UpdateOneCall [Mongo.TitleEq t] p) w))
    with (collection w).
  rewrite Hup. reflexivity.
Qed.

Lemma deleteBookByTitle_accepted (t : string) (w : World) :
  accepted w = true ->
  forall result c',
    Mongo.deleteOne [Mongo.TitleEq t] (collection w) = (result, c') ->
    deleteBookByTitle t w
    = (Returned tt,
       printed [Log [Str (nl ++ "Deleted " ++ dquote ++ t ++ dquote ++ " →");
                     Str (if Mongo.deletedCount result =? 0
                          then "No match found" else "Success")]]
               (stored c' (sent (DeleteOneCall [Mongo.TitleEq t]) w))).
Proof.
  intros Hacc result c' Hdel.
  unfold deleteBookByTitle, books.deleteOne, bind.
  rewrite (request_accepted _ _ Hacc). unfold get.
  change (collection (sent (DeleteOneCall [Mongo.TitleEq t]) w))
    with (collection w).
  rewrite Hdel. reflexivity.
Qed.

Lemma updateOne_length (f : Mongo.Filter) (p : Q) (c : Mongo.Collection) :
  List.length (snd (Mongo.updateOne_set_price f p c)) = List.length c.
Proof.
  induction c as [|b r IH]; simpl; [reflexivity|].
  destruct (Mongo.matches f b).
  - destruct (Qeq_bool (price b) p); reflexivity.
  - destruct (Mongo.updateOne_set_price f p r) as [res r']. simpl in *.
    f_equal. exact IH.
Qed.

(** C3. updateBookPrice prints "No match found" exactly when the update
    left the collection as it was and "Success" exactly when it changed it;
    it never changes the number of documents; and when no document has the
    title it prints "No match found" and the collection is unchanged. *)
Theorem updateBookPrice_no_match (t : string) (p : Q) (w : World) :
  accepted w = true ->
  exists verdict c',
    updateBookPrice t p w
    = (Returned tt,
       printed [Log [Str (nl ++ "Updated price for " ++ dquote ++ t
                             ++ dquote ++ " →");
                     Str verdict]]
               (stored c' (sent (UpdateOneCall [Mongo.TitleEq t] p) w)))
    /\ ((verdict = "No match found" /\ c' = collection w)
        \/ (verdict = "Success" /\ c' <> collection w))
    /\ List.length c' = List.length (collection w)
    /\ ((forall b, In b (collection w) -> title b <> t) ->
        verdict = "No match found" /\ c' = collection w).
Proof.
  intros Hacc.
  destruct (Mongo.updateOne_set_price [Mongo.TitleEq t] p (collection w))
    as [result c'] eqn:Hup.
  exists (if Mongo.modifiedCount result =? 0 then "No match found"
          else "Success"), c'.
  split; [apply (updateBookPrice_accepted t p w Hacc result c' Hup) |].
  split; [| split].
  - destruct (updateOne_modified _ _ _ _ _ Hup) as [[H0 Hc]|[H1 Hc]].
    + left. rewrite H0. split; [reflexivity | exact Hc].
    + right. rewrite H1. split; [reflexivity | exact Hc].
  - pose proof (updateOne_length [Mongo.TitleEq t] p (collection w)) as Hlen.
    rewrite Hup in Hlen. exact Hlen.
  - intros Hnone.
    rewrite (updateOne_no_match _ p _ (no_title_no_match t _ Hnone)) in Hup.
    inversion Hup; subst. split; reflexivity.
Qed.

Lemma updateBookPrice_no_match_witness :
  accepted (quiet shelf) = true
  /\ exists verdict c',
       updateBookPrice "Wuthering Heights" 7.99 (quiet shelf)
       = (Returned tt,
          printed [Log [Str (nl ++ "Updated price for " ++ dquote
                                ++ "Wuthering Heights" ++ dquote ++ " →");
                        Str verdict]]
                  (stored c'
                     (sent (UpdateOneCall [Mongo.TitleEq "Wuthering Heights"]
                                          7.99)
                           (quiet shelf))))
       /\ List.length c' = 3%nat.
Proof.
  split; [reflexivity |].
  destruct (updateBookPrice_no_match "Wuthering Heights" 7.99 (quiet shelf)
              eq_refl) as (verdict & c' & Hrun & _ & Hlen & _).
  exists verdict, c'. split; [exact Hrun | exact Hlen].
Defined.

(** C10. When the first document with the title already has the new price,
    the update matches one document and modifies none, the collection stays
    as it is, and updateBookPrice prints "No match found". *)
Theorem updateBookPrice_same_price (t : string) (p : Q) (w : World)
        (pre : list Book) (b : Book) (post : list Book) :
  accepted w = true ->
  collection w = (pre ++ b :: post)%list ->
  (forall x, In x pre -> title x <> t) ->
  title b = t ->
  (price b == p)%Q ->
  exists result,
    Mongo.updateOne_set_price [Mongo.TitleEq t] p (collection w)
    = (result, collection w)
    /\ Mongo.matchedCount result = 1
    /\ Mongo.modifiedCount result = 0
    /\ updateBookPrice t p w
       = (Returned tt,
          printed [Log [Str (nl ++ "Updated price for " ++ dquote ++ t
                                ++ dquote ++ " →");
                        Str "No match found"]]
                  (sent (UpdateOneCall [Mongo.TitleEq t] p) w)).
Proof.
  intros Hacc Hc Hpre Hb Hp.
  assert (Hup : Mongo.updateOne_set_price [Mongo.TitleEq t] p (collection w)
                = (Mongo.mkUpdateResult 1 0, collection w)).
  { rewrite Hc.
    rewrite (updateOne_first_match _ p pre b post
               (no_title_no_match t pre Hpre)).
    - rewrite (proj2 (Qeq_bool_iff _ _) Hp). reflexivity.
    - rewrite matches_title. apply String.eqb_eq. exact Hb. }
  exists (Mongo.mkUpdateResult 1 0).
  split; [exact Hup | split; [reflexivity | split; [reflexivity |]]].
  apply (updateBookPrice_accepted t p w Hacc _ _ Hup).
Qed.

Lemma updateBookPrice_same_price_witness :
  accepted (quiet shelf) = true
  /\ collection (quiet shelf) = ([book_a] ++ book_b :: [moby_dick])%list
  /\ title book_b = "Book B"
  /\ (price book_b == 20)%Q
  /\ exists result,
       Mongo.updateOne_set_price [Mongo.TitleEq "Book B"] 20 shelf
       = (result, shelf)
       /\ Mongo.matchedCount result = 1
       /\ Mongo.modifiedCount result = 0
       /\ updateBookPrice "Book B" 20 (quiet shelf)
          = (Returned tt,
             printed [Log [Str (nl ++ "Updated price for " ++ dquote
                                   ++ "Book B" ++ dquote ++ " →");
                           Str "No match found"]]
                     (sent (UpdateOneCall [Mongo.TitleEq "Book B"] 20)
                           (quiet shelf))).
Proof.
  split; [reflexivity | split; [reflexivity | split; [reflexivity |]]].
  split; [reflexivity |].
  apply (updateBookPrice_same_price "Book B" 20 (quiet shelf)
           [book_a] book_b [moby_dick]); try reflexivity.
  intros x [<- | []]. discriminate.
Defined.

(** C4. deleteBookByTitle prints "No match found" and leaves the collection
    as it was, or prints "Success" and leaves it one document shorter; when
    no document has the title it is the former, and when one has, the first
    such document is the one removed. *)
Theorem deleteBookByTitle_first_match (t : string) (w : World) :
  accepted w = true ->
  exists verdict c',
    deleteBookByTitle t w
    = (Returned tt,
       printed [Log [Str (nl ++ "Deleted " ++ dquote ++ t ++ dquote ++ " →");
                     Str verdict]]
               (stored c' (sent (DeleteOneCall [Mongo.TitleEq t]) w)))
    /\ ((verdict = "No match found" /\ c' = collection w)
        \/ (verdict = "Success"
            /\ S (List.length c') = List.length (collection w)))
    /\ ((forall b, In b (collection w) -> title b <> t) ->
        verdict = "No match found" /\ c' = collection w)
    /\ (forall pre b post,
          collection w = (pre ++ b :: post)%list ->
          (forall x, In x pre -> title x <> t) ->
          title b = t ->
          verdict = "Success" /\ c' = (pre ++ post)%list).
Proof.
  intros Hacc.
  destruct (Mongo.deleteOne [Mongo.TitleEq t] (collection w))
    as [result c'] eqn:Hdel.
  exists (if Mongo.deletedCount result =? 0 then "No match found"
          else "Success"), c'.
  split; [apply (deleteBookByTitle_accepted t w Hacc result c' Hdel) |].
  split; [| split].
  - destruct (deleteOne_count _ _ _ _ Hdel) as [[H0 Hc]|[H1 Hc]].
    + left. rewrite H0. split; [reflexivity | exact Hc].
    + right. rewrite H1. split; [reflexivity | exact Hc].
  - intros Hnone.
    rewrite (deleteOne_no_match _ _ (no_title_no_match t _ Hnone)) in Hdel.
    inversion Hdel; subst. split; reflexivity.
  - intros pre b post Hc Hpre Hb. rewrite Hc in Hdel.
    rewrite (deleteOne_first_match _ pre b post
               (no_title_no_match t pre Hpre)) in Hdel.
    + inversion Hdel; subst. split; reflexivity.
    + rewrite matches_title. apply String.eqb_eq. exact Hb.
Qed.

Lemma deleteBookByTitle_first_match_witness :
  accepted (quiet shelf) = true
  /\ exists verdict c',
       deleteBookByTitle "Book B" (quiet shelf)
       = (Returned tt,
          printed [Log [Str (nl ++ "Deleted " ++ dquote ++ "Book B" ++ dquote
                                ++ " →");
                        Str verdict]]
                  (stored c' (sent (DeleteOneCall [Mongo.TitleEq "Book B"])
                                   (quiet shelf))))
       /\ verdict = "Success" /\ c' = [book_a; moby_dick].
Proof.
  split; [reflexivity |].
  destruct (deleteBookByTitle_first_match "Book B" (quiet shelf) eq_refl)
    as (verdict & c' & Hrun & _ & _ & Hfirst).
  exists verdict, c'. split; [exact Hrun |].
  apply (Hfirst [book_a] book_b [moby_dick]); try reflexivity.
  intros x [<- | []]. discriminate.
Defined.

(** ** The aggregation stages *)

Section GroupFacts.
Context {K V : Type} (eqb : K -> K -> bool).
Hypothesis eqb_eq : forall a b, eqb a b = true <-> a = b.
Variable key : Book -> K.
Variable accumulator : list Book -> V.

Lemma distinct_In (k : K) (l : list K) :
  In k (Mongo.distinct eqb l) <-> In k l.
Proof.
  induction l as [|k0 r IH]; simpl; [tauto|].
  rewrite filter_In, IH. split.
  - intros [H | [H _]]; [left | right]; exact H.
  - intros [H | H]; [left; exact H |].
    destruct (eqb k0 k) eqn:E.
    + left. apply eqb_eq. exact E.
    + right. split; [exact H | reflexivity].
Qed.

Lemma distinct_NoDup (l : list K) : NoDup (Mongo.distinct eqb l).
Proof.
  induction l as [|k0 r IH]; simpl; constructor.
  - rewrite filter_In. intros [_ H].
    rewrite (proj2 (eqb_eq k0 k0) eq_refl) in H. discriminate.
  - apply NoDup_filter. exact IH.
Qed.

Lemma group_ids (input : list Book) :
  map Mongo._id (Mongo.group eqb key accumulator input)
  = Mongo.distinct eqb (map key input).
Proof.
  unfold Mongo.group. rewrite map_map. simpl. apply map_id.
Qed.

Lemma group_In (g : Mongo.Group K V) (input : list Book) :
  In g (Mongo.group eqb key accumulator input) <->
  (exists b, In b input /\ key b = Mongo._id g)
  /\ Mongo.acc g = accumulator (Mongo.members eqb key (Mongo._id g) input).
Proof.
  unfold Mongo.group. rewrite in_map_iff. split.
  - intros (k & <- & Hk). simpl. rewrite distinct_In, in_map_iff in Hk.
    destruct Hk as (b & Hb & Hin). split; [| reflexivity].
    exists b. split; [exact Hin | exact Hb].
  - intros [(b & Hin & Hb) Hacc]. exists (Mongo._id g). split.
    + destruct g as [k v]. simpl in *. rewrite Hacc. reflexivity.
    + rewrite distinct_In, in_map_iff. exists b. split; assumption.
Qed.

Lemma group_of (b : Book) (input : list Book) :
  In b input ->
  In (Mongo.mkGroup (key b)
        (accumulator (Mongo.members eqb key (key b) input)))
     (Mongo.group eqb key accumulator input).
Proof.
  intros Hin. apply group_In. simpl. split; [| reflexivity].
  exists b. split; [exact Hin | reflexivity].
Qed.

Lemma group_NoDup (input : list Book) :
  NoDup (map Mongo._id (Mongo.group eqb key accumulator input)).
Proof. rewrite group_ids. apply distinct_NoDup. Qed.

Lemma group_nonempty (input : list Book) :
  input <> [] -> Mongo.group eqb key accumulator input <> [].
Proof.
  destruct input as [|b r]; [congruence |]. intros _. discriminate.
Qed.

End GroupFacts.

Lemma sort_stage_perm {A K} (key : A -> K) (leb : K -> K -> bool) (d : Z)
      (l : list A) :
  Permutation (Mongo.sort_stage key leb d l) l.
Proof. apply isort_perm. Qed.

Lemma sort_stage_In {A K} (key : A -> K) (leb : K -> K -> bool) (d : Z)
      (l : list A) (a : A) :
  In a (Mongo.sort_stage key leb d l) <-> In a l.
Proof.
  split; apply Permutation_in;
    [apply sort_stage_perm | apply Permutation_sym, sort_stage_perm].
Qed.

Lemma sort_stage_NoDup {A K I} (id : A -> I) (key : A -> K)
      (leb : K -> K -> bool) (d : Z) (l : list A) :
  NoDup (map id l) -> NoDup (map id (Mongo.sort_stage key leb d l)).
Proof.
  apply Permutation_NoDup, Permutation_map, Permutation_sym, sort_stage_perm.
Qed.

(** Sorted keys without duplicates are strictly sorted. *)
Lemma sorted_distinct_strict {A} (id : A -> Z) (l : list A) :
  StronglySorted (fun a b => id a <= id b) l ->
  NoDup (map id l) ->
  StronglySorted (fun a b => id a < id b) l.
Proof.
  induction 1 as [|a l Hl IH Ha]; intros Hnd; constructor.
  - apply IH. inversion Hnd; assumption.
  - inversion Hnd as [|x xs Hnotin _]; subst.
    rewrite Forall_forall in *. intros b Hb.
    specialize (Ha b Hb).
    assert (id a <> id b).
    { intros E. apply Hnotin. rewrite E. apply in_map. exact Hb. }
    lia.
Qed.

Lemma aggregate_accepted {k v : Mongo.Ty} (pipeline : Mongo.Pipeline k v)
      (w : World) :
  accepted w = true ->
  books.aggregate pipeline w
  = (Returned (Mongo.aggregate pipeline (collection w)),
     sent (AggregateCall pipeline) w).
Proof.
  intros Hacc. unfold books.aggregate, bind.
  rewrite (request_accepted _ _ Hacc). reflexivity.
Qed.

Lemma Zeqb_eq (a b : Z) : (a =? b) = true <-> a = b.
Proof. apply Z.eqb_eq. Qed.

(** What the three pipelines of the program compute, stage by stage. *)
Lemma group_ext {K V} (eqb : K -> K -> bool) (key : Book -> K)
      (f g : list Book -> V) (input : list Book) :
  (forall l, f l = g l) ->
  Mongo.group eqb key f input = Mongo.group eqb key g input.
Proof.
  intros H. unfold Mongo.group. apply map_ext. intros k. rewrite H.
  reflexivity.
Qed.

Lemma sum_of_ones (docs : list Book) :
  Mongo.accumulate (Mongo.Sum (Mongo.Literal 1)) docs = Mongo.sum_1 docs.
Proof.
  unfold Mongo.sum_1. induction docs as [|b r IH]; [reflexivity |].
  change (Mongo.accumulate (Mongo.Sum (Mongo.Literal 1)) (b :: r))
    with (1 + Mongo.accumulate (Mongo.Sum (Mongo.Literal 1)) r).
  rewrite IH. change (List.length (b :: r)) with (S (List.length r)). lia.
Qed.


Lemma aggregate_authorWithMostBooks (docs : list Book) :
  Mongo.aggregate authorWithMostBooks_pipeline docs
  = Mongo.limit_stage 1
      (Mongo.sort_stage totalBooks Z.leb (-1)
         (Mongo.group String.eqb author Mongo.sum_1 docs)).
Proof.
  change (Mongo.aggregate authorWithMostBooks_pipeline docs)
    with (Mongo.limit_stage 1
            (Mongo.sort_stage totalBooks Z.leb (-1)
               (@Mongo.group string Z String.eqb author
                  (Mongo.accumulate (Mongo.Sum (Mongo.Literal 1))) docs))).
  rewrite (@group_ext string Z String.eqb author _ Mongo.sum_1 docs
             sum_of_ones).
  reflexivity.
Qed.

Lemma aggregate_booksByDecade (docs : list Book) :
  Mongo.aggregate booksByDecade_pipeline docs
  = Mongo.sort_stage Mongo._id Z.leb 1
      (Mongo.group Z.eqb decade Mongo.sum_1 docs).
Proof.
  change (Mongo.aggregate booksByDecade_pipeline docs)
    with (Mongo.sort_stage Mongo._id Z.leb 1
            (@Mongo.group Z Z Z.eqb decade
               (Mongo.accumulate (Mongo.Sum (Mongo.Literal 1))) docs)).
  rewrite (@group_ext Z Z Z.eqb decade _ Mongo.sum_1 docs sum_of_ones).
  reflexivity.
Qed.

(** ** booksByDecade *)

Lemma booksByDecade_pipeline_spec (docs : list Book) :
  (forall b, In b docs ->
     exists g, In g (Mongo.aggregate booksByDecade_pipeline docs)
       /\ Mongo._id g = published_year b - Z.rem (published_year b) 10
       /\ totalBooks g
          = Z.of_nat (List.length
                        (filter (fun x => decade x =? decade b) docs)))
  /\ (forall g, In g (Mongo.aggregate booksByDecade_pipeline docs) ->
        exists b, In b docs /\ decade b = Mongo._id g)
  /\ StronglySorted (fun g h => Mongo._id g < Mongo._id h)
                    (Mongo.aggregate booksByDecade_pipeline docs).
Proof.
  rewrite aggregate_booksByDecade. split; [| split].
  - intros b Hb.
    exists (Mongo.mkGroup (decade b)
              (Mongo.sum_1 (Mongo.members Z.eqb decade (decade b) docs))).
    split; [| split; reflexivity].
    apply sort_stage_In. apply (group_of Z.eqb Zeqb_eq). exact Hb.
  - intros g Hg. apply sort_stage_In in Hg.
    apply (group_In Z.eqb Zeqb_eq) in Hg. exact (proj1 Hg).
  - apply sorted_distinct_strict.
    + eapply StronglySorted_weaken;
        [| apply (sort_ascending Mongo._id Z.leb Zleb_total Zleb_trans); lia].
      intros a b. apply Z.leb_le.
    + apply sort_stage_NoDup, (group_NoDup Z.eqb Zeqb_eq).
Qed.

(** C5. booksByDecade counts every document in the group whose key is
    published_year - (published_year mod 10), every group is the decade of
    some document, and the groups are printed in ascending order of the
    key; books of 1955 and 1959 make one group of key 1950 and a book of
    1960 a second group of key 1960. *)
Theorem booksByDecade_groups (w : World) :
  accepted w = true ->
  exists result,
    booksByDecade w
    = (Returned tt,
       printed [Log [Str (nl ++ "Books Grouped by Publication Decade:")];
                Table (DecadeRows result)]
               (sent (AggregateCall booksByDecade_pipeline) w))
    /\ (forall b, In b (collection w) ->
          exists g, In g result
            /\ Mongo._id g = published_year b - Z.rem (published_year b) 10
            /\ totalBooks g
               = Z.of_nat (List.length
                             (filter (fun x => decade x =? decade b)
                                     (collection w))))
    /\ (forall g, In g result ->
          exists b, In b (collection w) /\ decade b = Mongo._id g)
    /\ StronglySorted (fun g h => Mongo._id g < Mongo._id h) result
    /\ (forall t1 a1 g1 p1 s1 t2 a2 g2 p2 s2 t3 a3 g3 p3 s3,
          collection w = [mkBook t1 a1 g1 1955 p1 s1;
                          mkBook t2 a2 g2 1959 p2 s2;
                          mkBook t3 a3 g3 1960 p3 s3] ->
          result = [Mongo.mkGroup 1950 2; Mongo.mkGroup 1960 1]).
Proof.
  intros Hacc. exists (Mongo.aggregate booksByDecade_pipeline (collection w)).
  destruct (booksByDecade_pipeline_spec (collection w)) as (H1 & H2 & H3).
  split; [| split; [exact H1 | split; [exact H2 | split; [exact H3 |]]]].
  - unfold booksByDecade. unfold bind at 1.
    rewrite (aggregate_accepted _ _ Hacc). apply log_then_table.
  - intros t1 a1 g1 p1 s1 t2 a2 g2 p2 s2 t3 a3 g3 p3 s3 ->. reflexivity.
Qed.

Lemma booksByDecade_groups_witness :
  accepted (quiet shelf) = true
  /\ exists result,
       booksByDecade (quiet shelf)
       = (Returned tt,
          printed [Log [Str (nl ++ "Books Grouped by Publication Decade:")];
                   Table (DecadeRows result)]
                  (sent (AggregateCall booksByDecade_pipeline) (quiet shelf)))
       /\ StronglySorted (fun g h => Mongo._id g < Mongo._id h) result.
Proof.
  split; [reflexivity |].
  destruct (booksByDecade_groups (quiet shelf) eq_refl)
    as (result & Hrun & _ & _ & Hsorted & _).
  exists result. split; [exact Hrun | exact Hsorted].
Defined.

Example booksByDecade_shelf :
  Mongo.aggregate booksByDecade_pipeline shelf
  = [Mongo.mkGroup 1850 1; Mongo.mkGroup 1950 2].
Proof. reflexivity. Qed.

(** ** authorWithMostBooks *)

Lemma members_empty {K} (eqb : K -> K -> bool) (key : Book -> K) (k : K)
      (docs : list Book) :
  (forall b, In b docs -> eqb (key b) k = false) ->
  Mongo.members eqb key k docs = [].
Proof.
  intros H. unfold Mongo.members. induction docs as [|b r IH]; simpl;
    [reflexivity |].
  rewrite (H b (or_introl eq_refl)). apply IH.
  intros x Hx. apply H. right. exact Hx.
Qed.

Lemma members_or_none (a : string) (docs : list Book) :
  (exists b, In b docs /\ author b = a)
  \/ Mongo.members String.eqb author a docs = [].
Proof.
  induction docs as [|b r IH].
  - right. reflexivity.
  - destruct (String.eqb_spec (author b) a) as [E|E].
    + left. exists b. split; [left; reflexivity | exact E].
    + destruct IH as [(x & Hx & Ha) | Hnone].
      * left. exists x. split; [right; exact Hx | exact Ha].
      * right. unfold Mongo.members in *. simpl.
        rewrite (proj2 (String.eqb_neq _ _) E). exact Hnone.
Qed.

(** The row that [$limit: 1] keeps is an author with the highest count
    whatever order the server gives to authors of equal count: [arrange]
    is any function that sorts the groups by count, descending. *)
Section AnyTieBreak.
Variable arrange : list (Mongo.Group string Z) -> list (Mongo.Group string Z).
Hypothesis arrange_perm : forall l, Permutation (arrange l) l.
Hypothesis arrange_sorted :
  forall l, StronglySorted (fun g h => totalBooks h <= totalBooks g)
                           (arrange l).

Lemma most_books_any_tie_break (docs : list Book) :
  docs <> [] ->
  exists g,
    Mongo.limit_stage 1
      (arrange (Mongo.group String.eqb author Mongo.sum_1 docs)) = [g]
    /\ (exists b, In b docs /\ author b = Mongo._id g)
    /\ totalBooks g
       = Z.of_nat (List.length
                     (filter (fun b => String.eqb (author b) (Mongo._id g))
                             docs))
    /\ (forall a,
          Z.of_nat (List.length
                      (filter (fun b => String.eqb (author b) a) docs))
          <= totalBooks g).
Proof.
  intros Hne.
  set (groups := Mongo.group String.eqb author Mongo.sum_1 docs).
  pose proof (arrange_sorted groups) as Hsorted.
  assert (Hin : forall g, In g (arrange groups) <-> In g groups).
  { intros g. split; apply Permutation_in;
      [apply arrange_perm | apply Permutation_sym, arrange_perm]. }
  destruct (arrange groups) as [|g rest].
  - exfalso. apply (group_nonempty String.eqb author Mongo.sum_1 docs Hne).
    fold groups. destruct groups as [|g0 gs]; [reflexivity |].
    destruct (proj2 (Hin g0) (or_introl eq_refl)).
  - exists g. split; [reflexivity |].
    assert (Hg : In g groups) by (apply Hin; left; reflexivity).
    apply (group_In String.eqb String.eqb_eq) in Hg.
    destruct Hg as [Hauthor Hcount].
    split; [exact Hauthor | split; [exact Hcount |]].
    intros a. inversion Hsorted as [|x xs _ Hall]; subst.
    destruct (members_or_none a docs) as [(b & Hb & Ha) | Hnone].
    + assert (Hga : In (Mongo.mkGroup a
                          (Mongo.sum_1
                             (Mongo.members String.eqb author a docs)))
                       (g :: rest)).
      { apply Hin. subst a.
        apply (group_of String.eqb String.eqb_eq). exact Hb. }
      destruct Hga as [Heq | Hrest].
      * rewrite Heq. apply Z.le_refl.
      * rewrite Forall_forall in Hall. exact (Hall _ Hrest).
    + unfold Mongo.members in Hnone. rewrite Hnone. simpl.
      unfold totalBooks. rewrite Hcount. apply Nat2Z.is_nonneg.
Qed.

End AnyTieBreak.

Lemma authorWithMostBooks_pipeline_spec (docs : list Book) :
  docs <> [] ->
  exists g,
    Mongo.aggregate authorWithMostBooks_pipeline docs = [g]
    /\ (exists b, In b docs /\ author b = Mongo._id g)
    /\ totalBooks g
       = Z.of_nat (List.length
                     (filter (fun b => String.eqb (author b) (Mongo._id g))
                             docs))
    /\ (forall a,
          Z.of_nat (List.length
                      (filter (fun b => String.eqb (author b) a) docs))
          <= totalBooks g).
Proof.
  rewrite aggregate_authorWithMostBooks.
  apply (most_books_any_tie_break (Mongo.sort_stage totalBooks Z.leb (-1))).
  - intros l. apply sort_stage_perm.
  - intros l. eapply StronglySorted_weaken;
      [| apply (sort_descending totalBooks Z.leb Zleb_total Zleb_trans); lia].
    intros a b. apply Z.leb_le.
Qed.

(** C6. On a collection that holds at least one document
    authorWithMostBooks prints exactly one row: an author of the collection
    with the number of their documents, and no author has more. *)
Theorem authorWithMostBooks_single (w : World) :
  accepted w = true ->
  collection w <> [] ->
  exists g,
    authorWithMostBooks w
    = (Returned tt,
       printed [Log [Str (nl ++ "Author with the Most Books:")];
                Table (AuthorRows [g])]
               (sent (AggregateCall authorWithMostBooks_pipeline) w))
    /\ (exists b, In b (collection w) /\ author b = Mongo._id g)
    /\ totalBooks g
       = Z.of_nat (List.length
                     (filter (fun b => String.eqb (author b) (Mongo._id g))
                             (collection w)))
    /\ (forall a,
          Z.of_nat (List.length
                      (filter (fun b => String.eqb (author b) a)
                              (collection w)))
          <= totalBooks g).
Proof.
  intros Hacc Hne.
  destruct (authorWithMostBooks_pipeline_spec (collection w) Hne)
    as (g & Hpipe & Hrest).
  exists g. split; [| exact Hrest].
  unfold authorWithMostBooks. unfold bind at 1.
  rewrite (aggregate_accepted _ _ Hacc), Hpipe. apply log_then_table.
Qed.

(** Ann, Bob and Herman Melville have one book each on the shelf: one of
    the three is printed. *)
Lemma authorWithMostBooks_single_witness :
  accepted (quiet shelf) = true
  /\ collection (quiet shelf) <> []
  /\ exists g,
       authorWithMostBooks (quiet shelf)
       = (Returned tt,
          printed [Log [Str (nl ++ "Author with the Most Books:")];
                   Table (AuthorRows [g])]
                  (sent (AggregateCall authorWithMostBooks_pipeline)
                        (quiet shelf)))
       /\ totalBooks g = 1.
Proof.
  split; [reflexivity | split; [discriminate |]].
  destruct (authorWithMostBooks_single (quiet shelf) eq_refl)
    as (g & Hrun & _ & _ & _); [discriminate |].
  exists g. split; [exact Hrun |].
  revert Hrun. vm_compute. intros Hrun. inversion Hrun. reflexivity.
Defined.

Example authorWithMostBooks_tie :
  Mongo.aggregate authorWithMostBooks_pipeline shelf
  = [Mongo.mkGroup "Ann" 1].
Proof. reflexivity. Qed.

Example authorWithMostBooks_empty :
  Mongo.aggregate authorWithMostBooks_pipeline [] = [].
Proof. reflexivity. Qed.

(** ** averagePriceByGenre *)







Example averagePriceByGenre_shelf :
  Mongo.aggregate averagePriceByGenre_pipeline shelf
  = [Mongo.mkGroup "Fiction" 15%Q; Mongo.mkGroup "Adventure" (25 # 2)%Q].
Proof. reflexivity. Qed.

(** ** analyzeIndexPerformance *)

(** Without an index the plan is a collection scan over every document;
    with the title index it is a fetch of the documents of that title. *)
Lemma explain_without_index (t : string) (c : Mongo.Collection) (millis : Z) :
  Mongo.explain [Mongo.TitleEq t] c [] millis
  = Mongo.mkExplain
      (Mongo.mkExecutionStats (Z.of_nat (List.length c)) millis)
      (Mongo.mkQueryPlanner (Mongo.mkWinningPlan "COLLSCAN")).
Proof. reflexivity. Qed.

Lemma explain_with_title_index (t : string) (c : Mongo.Collection)
      (millis : Z) :
  Mongo.explain [Mongo.TitleEq t] c [[("title", 1)]] millis
  = Mongo.mkExplain
      (Mongo.mkExecutionStats
         (Z.of_nat (List.length (filter (fun b => String.eqb (title b) t) c)))
         millis)
      (Mongo.mkQueryPlanner (Mongo.mkWinningPlan "FETCH")).
Proof. reflexivity. Qed.

(** C9. When the server answers its four calls, analyzeIndexPerformance
    sends, in this order, dropIndexes, an explain of the query title =
    "1984", createIndex of the ascending title index and the same explain
    again; it prints the documents examined and the time of the first
    explain, then those of the second, then the stage of the winning plan
    of the second; the collection is left with the title index alone. *)
Theorem analyzeIndexPerformance_steps (w : World) :
  all_accepted 4 (replies w) = true ->
  exists before after,
    before = Mongo.explain [Mongo.TitleEq "1984"] (collection w) []
                           (millis_at 1 (replies w))
    /\ after = Mongo.explain [Mongo.TitleEq "1984"] (collection w)
                             [[("title", 1)]] (millis_at 3 (replies w))
    /\ analyzeIndexPerformance w
       = (Returned tt,
          mkWorld
            (collection w)
            [[("title", 1)]]
            (connection w)
            (console w ++
               [Log [Str (nl ++ "Before Index: Total Docs Examined =");
                     Int (Mongo.totalDocsExamined
                            (Mongo.executionStats before))];
                Log [Str "Before Index: Execution Time =";
                     Int (Mongo.executionTimeMillis
                            (Mongo.executionStats before));
                     Str "ms"];
                Log [Str "After Index: Total Docs Examined =";
                     Int (Mongo.totalDocsExamined
                            (Mongo.executionStats after))];
                Log [Str "After Index: Execution Time =";
                     Int (Mongo.executionTimeMillis
                            (Mongo.executionStats after));
                     Str "ms"];
                Log [Str "Winning Plan:";
                     Str (Mongo.stage
                            (Mongo.winningPlan (Mongo.queryPlanner after)))]])
            (wire w ++
               [DropIndexesCall;
                ExplainCall [Mongo.TitleEq "1984"];
                CreateIndexCall [("title", 1)];
                ExplainCall [Mongo.TitleEq "1984"]])
            (skipn 4 (replies w))).
Proof.
  intros Hacc. eexists. eexists.
  split; [reflexivity | split; [reflexivity |]].
  rewrite explain_without_index, explain_with_title_index.
  destruct w as [c ixs cl con wi rs]. simpl in Hacc |- *.
  destruct rs as [|[|m1] [|[|m2] [|[|m3] [|[|m4] rest]]]];
    try discriminate Hacc;
    cbv [analyzeIndexPerformance bind books.dropIndexes books.explain
         books.createIndex books.find request set_indexes get ret
         console_log print collection indexes connection console wire replies
         Mongo.c_filter tl];
    rewrite ?explain_without_index;
    change (Mongo.createIndex [("title", 1)] []) with [[("title", 1)]];
    rewrite ?explain_with_title_index;
    repeat rewrite <- app_assoc; reflexivity.
Qed.

Lemma analyzeIndexPerformance_steps_witness :
  all_accepted 4 (replies timed_shelf) = true
  /\ analyzeIndexPerformance timed_shelf
     = (Returned tt,
        mkWorld shelf [[("title", 1)]] Connected
          [Log [Str (nl ++ "Before Index: Total Docs Examined ="); Int 3];
           Log [Str "Before Index: Execution Time ="; Int 7; Str "ms"];
           Log [Str "After Index: Total Docs Examined ="; Int 0];
           Log [Str "After Index: Execution Time ="; Int 2; Str "ms"];
           Log [Str "Winning Plan:"; Str "FETCH"]]
          [DropIndexesCall;
           ExplainCall [Mongo.TitleEq "1984"];
           CreateIndexCall [("title", 1)];
           ExplainCall [Mongo.TitleEq "1984"]]
          []).
Proof.
  split; [reflexivity |].
  destruct (analyzeIndexPerformance_steps timed_shelf eq_refl)
    as (before & after & -> & -> & Hrun).
  exact Hrun.
Defined.

(** ** run *)

Lemma qo_ret {A} (a : A) : queries_only (ret a).
Proof.
  intros w. exists [], []. simpl. rewrite !app_nil_r. repeat split.
  constructor.
Qed.

Lemma qo_throw {A} (e : Err) : queries_only (@throw A e).
Proof.
  intros w. exists [], []. simpl. rewrite !app_nil_r. repeat split.
  constructor.
Qed.

Lemma qo_get {A} (field : World -> A) : queries_only (get field).
Proof.
  intros w. exists [], []. simpl. rewrite !app_nil_r. repeat split.
  constructor.
Qed.

Lemma qo_set_collection (c : Mongo.Collection) :
  queries_only (set_collection c).
Proof.
  intros w. exists [], []. simpl. rewrite !app_nil_r. repeat split.
  constructor.
Qed.

Lemma qo_set_indexes (ixs : list Mongo.IndexSpec) :
  queries_only (set_indexes ixs).
Proof.
  intros w. exists [], []. simpl. rewrite !app_nil_r. repeat split.
  constructor.
Qed.

Lemma qo_print (l : Line) : queries_only (print l).
Proof.
  intros w. exists [], [l]. simpl. rewrite app_nil_r. repeat split.
  constructor.
Qed.

Lemma qo_request (c : Call) : is_query c = true -> queries_only (request c).
Proof.
  intros Hc w. exists [c], []. unfold request.
  destruct (replies w) as [|[|millis] rs]; simpl; rewrite app_nil_r;
    repeat split; repeat constructor; exact Hc.
Qed.

Lemma qo_bind {A B} (m : Async A) (k : A -> Async B) :
  queries_only m -> (forall a, queries_only (k a)) -> queries_only (bind m k).
Proof.
  intros Hm Hk w. unfold bind.
  destruct (Hm w) as (qs1 & lines1 & Hw1 & Hq1 & Hc1 & Hs1).
  destruct (m w) as [[a|e] w1]; simpl in *.
  - destruct (Hk a w1) as (qs2 & lines2 & Hw2 & Hq2 & Hc2 & Hs2).
    exists (qs1 ++ qs2)%list, (lines1 ++ lines2)%list.
    rewrite Hw2, Hw1, Hc2, Hc1, Hs2, Hs1, <- !app_assoc.
    repeat split. apply Forall_app. split; assumption.
  - exists qs1, lines1. repeat split; assumption.
Qed.

Ltac queries :=
  repeat first
    [ apply qo_bind; [| intros ?]
    | apply qo_ret
    | apply qo_throw
    | apply qo_get
    | apply qo_print
    | apply qo_set_collection
    | apply qo_set_indexes
    | apply qo_request; reflexivity
    | match goal with
      | |- queries_only (match ?x with _ => _ end) => destruct x
      end ].

Lemma qo_toArray (cur : Mongo.FindCursor) : queries_only (books.toArray cur).
Proof. unfold books.toArray. queries. Qed.

Lemma qo_aggregate {k v : Mongo.Ty} (pipeline : Mongo.Pipeline k v) :
  queries_only (books.aggregate pipeline).
Proof. unfold books.aggregate. queries. Qed.

Lemma qo_createIndex (spec : Mongo.IndexSpec) :
  queries_only (books.createIndex spec).
Proof. unfold books.createIndex. queries. Qed.

Lemma qo_explain (cur : Mongo.FindCursor) : queries_only (books.explain cur).
Proof. unfold books.explain. queries. Qed.


Lemma connect_then {A} (k : Async A) (w : World) :
  (client.connect ;; k) w
  = if accepted w then k (opened w)
    else (Thrown (ServerError Connect), sent Connect w).
Proof.
  unfold client.connect. unfold bind at 1 2.
  destruct (accepted w) eqn:Hacc.
  - rewrite (request_accepted _ _ Hacc). reflexivity.
  - rewrite (request_rejected _ _ Hacc). reflexivity.
Qed.

Lemma close_then_log (args : list Value) (w : World) :
  (client.close ;; console_log args) w
  = if accepted w then (Returned tt, printed [Log args] (closed w))
    else (Thrown (ServerError Close), sent Close w).
Proof.
  unfold client.close. unfold bind at 1 2.
  destruct (accepted w) eqn:Hacc.
  - rewrite (request_accepted _ _ Hacc). reflexivity.
  - rewrite (request_rejected _ _ Hacc). reflexivity.
Qed.


(** The three blocks of [run]: the handler prints the error, and the
    finally block sends the close call and prints the closing message. *)
Lemma run_blocks (w : World) :
  run w
  = let (r1, w1) := run_body w in
    let w2 := match r1 with
              | Returned _ => w1
              | Thrown e =>
                  printed [Error [Str "Error occurred:"; Failure e]] w1
              end in
    if accepted w1
    then (Returned tt,
          printed [Log [Str (nl ++ "MongoDB connection closed 💤")]]
                  (closed w2))
    else (Thrown (ServerError Close), sent Close w2).
Proof.
  unfold run, try_catch_finally.
  destruct (run_body w) as [[[]|e] w1].
  - rewrite close_then_log. destruct (accepted w1); reflexivity.
  - change (console_error [Str "Error occurred:"; Failure e] w1)
      with (@Returned unit tt,
            printed [Error [Str "Error occurred:"; Failure e]] w1).
    cbv iota. rewrite close_then_log.
    change (accepted (printed [Error [Str "Error occurred:"; Failure e]] w1))
      with (accepted w1).
    destruct (accepted w1); reflexivity.
Qed.




(** The server rejects the second query: the error is printed, the close
    call follows, and the closing message is the last line. *)
Example run_failing_shelf :
  wire (snd (run failing_shelf))
  = [Connect;
     FindCall (books.find []);
     FindCall (books.find [Mongo.PublishedYearGt 1959]);
     Close]
  /\ console (snd (run failing_shelf))
     = [Log [Str (nl ++ "Connected to plp_bookstore database ✅")];
        Log [Str (nl ++ "All Books:")];
        Log [Docs shelf];
        Error [Str "Error occurred:";
               Failure (ServerError
                          (FindCall (books.find [Mongo.PublishedYearGt 1959])))];
        Log [Str (nl ++ "MongoDB connection closed 💤")]].
Proof. split; reflexivity. Qed.

(** The server rejects the connection: nothing is queried, and the close
    call is still sent. *)
Example run_connection_rejected :
  wire (snd (run (mkWorld shelf [] Idle [] [] [Rejects]))) = [Connect; Close]
  /\ fst (run (mkWorld shelf [] Idle [] [] [Rejects])) = Returned tt.
Proof. split; reflexivity. Qed.

(** * Further properties *)

(** ** The find functions *)

Lemma execute_find (f : Mongo.Filter) (c : Mongo.Collection) :
  Mongo.execute (books.find f) c = Some (Mongo.find f c).
Proof. reflexivity. Qed.

Lemma find_toArray_accepted (f : Mongo.Filter) (w : World) :
  accepted w = true ->
  books.toArray (books.find f) w
  = (Returned (Mongo.find f (collection w)), sent (FindCall (books.find f)) w).
Proof.
  intros Hacc.
  apply (toArray_accepted (books.find f) (Mongo.find f (collection w)) w
           Hacc).
  apply execute_find.
Qed.

Lemma find_then_log (f : Mongo.Filter) (header : string) (w : World) :
  accepted w = true ->
  (result <- books.toArray (books.find f) ;;
   console_log [Str header] ;;
   console_log [Docs result]) w
  = (Returned tt,
     printed [Log [Str header]; Log [Docs (Mongo.find f (collection w))]]
             (sent (FindCall (books.find f)) w)).
Proof.
  intros Hacc. unfold bind at 1.
  rewrite (find_toArray_accepted _ _ Hacc). apply log_twice.
Qed.

Lemma find_ext (f : Mongo.Filter) (p : Book -> bool) (c : Mongo.Collection) :
  (forall b, Mongo.matches f b = p b) -> Mongo.find f c = filter p c.
Proof. intros H. unfold Mongo.find. apply filter_ext. exact H. Qed.

(** X1. For a year that is an integer of at most 2^53 in absolute value,
    so that a number holds it exactly, findAfterYear prints, in the order
    of the collection, exactly the documents published strictly after the
    year: a document of the year itself is left out. *)
Theorem findAfterYear_strictly_after (year : Z) (w : World) :
  Z.abs year <= 2 ^ 53 ->
  accepted w = true ->
  exists results,
    findAfterYear year w
    = (Returned tt,
       printed [Log [Str (nl ++ "Books published after " ++ show year ++ ":")];
                Log [Docs results]]
               (sent (FindCall (books.find [Mongo.PublishedYearGt year])) w))
    /\ results = filter (fun b => year <? published_year b) (collection w)
    /\ (forall b, In b results <->
                  In b (collection w) /\ year < published_year b)
    /\ (forall b, published_year b = year -> ~ In b results).
Proof.
  intros _ Hacc.
  exists (Mongo.find [Mongo.PublishedYearGt year] (collection w)).
  assert (Hfind : Mongo.find [Mongo.PublishedYearGt year] (collection w)
                  = filter (fun b => year <? published_year b) (collection w)).
  { apply find_ext. intros b. unfold Mongo.matches. simpl.
    apply andb_true_r. }
  split; [apply (find_then_log _ _ _ Hacc) |].
  split; [exact Hfind |]. rewrite Hfind. split.
  - intros b. rewrite filter_In, Z.ltb_lt. tauto.
  - intros b Hb. rewrite filter_In, Z.ltb_lt. lia.
Qed.

Lemma findAfterYear_strictly_after_witness :
  Z.abs 1955 <= 2 ^ 53
  /\ accepted (quiet shelf) = true
  /\ exists results,
       findAfterYear 1955 (quiet shelf)
       = (Returned tt,
          printed [Log [Str (nl ++ "Books published after 1955:")];
                   Log [Docs results]]
                  (sent (FindCall (books.find [Mongo.PublishedYearGt 1955]))
                        (quiet shelf)))
       /\ results = [book_b].
Proof.
  split; [bounds | split; [reflexivity |]].
  destruct (findAfterYear_strictly_after 1955 (quiet shelf))
    as (results & Hrun & Hres & _); [bounds | reflexivity |].
  exists results. split; [exact Hrun | exact Hres].
Defined.

(** X2. findByAuthor prints, in the order of the collection, exactly the
    documents whose author is the given string, character for character. *)
Theorem findByAuthor_exact (authorName : string) (w : World) :
  accepted w = true ->
  exists results,
    findByAuthor authorName w
    = (Returned tt,
       printed [Log [Str (nl ++ "Books by " ++ authorName ++ ":")];
                Log [Docs results]]
               (sent (FindCall (books.find [Mongo.AuthorEq authorName])) w))
    /\ results = filter (fun b => String.eqb (author b) authorName)
                        (collection w)
    /\ (forall b, In b results <->
                  In b (collection w) /\ author b = authorName).
Proof.
  intros Hacc.
  exists (Mongo.find [Mongo.AuthorEq authorName] (collection w)).
  assert (Hfind : Mongo.find [Mongo.AuthorEq authorName] (collection w)
                  = filter (fun b => String.eqb (author b) authorName)
                           (collection w)).
  { apply find_ext. intros b. unfold Mongo.matches. simpl.
    apply andb_true_r. }
  split; [apply (find_then_log _ _ _ Hacc) |].
  split; [exact Hfind |]. rewrite Hfind.
  intros b. rewrite filter_In, String.eqb_eq. tauto.
Qed.

Lemma findByAuthor_exact_witness :
  accepted (quiet shelf) = true
  /\ exists results,
       findByAuthor "ann" (quiet shelf)
       = (Returned tt,
          printed [Log [Str (nl ++ "Books by ann:")]; Log [Docs results]]
                  (sent (FindCall (books.find [Mongo.AuthorEq "ann"]))
                        (quiet shelf)))
       /\ results = [].
Proof.
  split; [reflexivity |].
  destruct (findByAuthor_exact "ann" (quiet shelf) eq_refl)
    as (results & Hrun & Hres & _).
  exists results. split; [exact Hrun | exact Hres].
Defined.

(** X3. findInStockAfter2010 prints exactly the documents that are in stock
    and published after 2010: the in-stock documents among those that
    findAfterYear prints for 2010. *)
Theorem findInStockAfter2010_both (w : World) :
  accepted w = true ->
  exists results after2010,
    findInStockAfter2010 w
    = (Returned tt,
       printed [Log [Str (nl ++ "📘 Books in stock and published after 2010:")];
                Log [Docs results]]
               (sent (FindCall (books.find [Mongo.InStockEq true;
                                            Mongo.PublishedYearGt 2010])) w))
    /\ findAfterYear 2010 w
       = (Returned tt,
          printed [Log [Str (nl ++ "Books published after 2010:")];
                   Log [Docs after2010]]
                  (sent (FindCall (books.find [Mongo.PublishedYearGt 2010])) w))
    /\ results = filter in_stock after2010
    /\ (forall b, In b results <->
                  In b (collection w)
                  /\ in_stock b = true /\ 2010 < published_year b).
Proof.
  intros Hacc.
  exists (Mongo.find [Mongo.InStockEq true; Mongo.PublishedYearGt 2010]
                     (collection w)),
         (Mongo.find [Mongo.PublishedYearGt 2010] (collection w)).
  assert (Hall : forall c,
             Mongo.find [Mongo.InStockEq true; Mongo.PublishedYearGt 2010] c
             = filter in_stock (Mongo.find [Mongo.PublishedYearGt 2010] c)).
  { intros c. unfold Mongo.find. induction c as [|b r IH]; [reflexivity |].
    cbn [filter]. rewrite IH.
    replace (Mongo.matches [Mongo.InStockEq true; Mongo.PublishedYearGt 2010]
                           b)
      with (Mongo.matches [Mongo.PublishedYearGt 2010] b && in_stock b).
    - destruct (Mongo.matches [Mongo.PublishedYearGt 2010] b); [| reflexivity].
      cbn [andb filter]. reflexivity.
    - unfold Mongo.matches. simpl.
      destruct (in_stock b), (2010 <? published_year b); reflexivity. }
  split; [apply (find_then_log _ _ _ Hacc) |].
  split; [apply (find_then_log _ _ _ Hacc) |].
  split; [apply Hall |].
  intros b. rewrite Hall, filter_In. unfold Mongo.find. rewrite filter_In.
  unfold Mongo.matches. simpl. rewrite andb_true_r, Z.ltb_lt. tauto.
Qed.

Lemma findInStockAfter2010_both_witness :
  accepted (quiet shelf) = true
  /\ exists results after2010,
       findInStockAfter2010 (quiet shelf)
       = (Returned tt,
          printed
            [Log [Str (nl ++ "📘 Books in stock and published after 2010:")];
             Log [Docs results]]
            (sent (FindCall (books.find [Mongo.InStockEq true;
                                         Mongo.PublishedYearGt 2010]))
                  (quiet shelf)))
       /\ results = filter in_stock after2010.
Proof.
  split; [reflexivity |].
  destruct (findInStockAfter2010_both (quiet shelf) eq_refl)
    as (results & after2010 & Hrun & _ & Hres & _).
  exists results, after2010. split; [exact Hrun | exact Hres].
Defined.

(** ** The functions that only read *)

Lemma same_data_refl (w : World) : same_data w w.
Proof. split; reflexivity. Qed.

Lemma same_data_trans (w1 w2 w3 : World) :
  same_data w1 w2 -> same_data w2 w3 -> same_data w1 w3.
Proof. intros [H1 H2] [H3 H4]. split; congruence. Qed.

Lemma keeps_bind {A B} (m : Async A) (k : A -> Async B) :
  keeps same_data m -> (forall a, keeps same_data (k a)) ->
  keeps same_data (bind m k).
Proof.
  intros Hm Hk w. unfold bind. specialize (Hm w).
  destruct (m w) as [[a|e] w1]; simpl in *.
  - eapply same_data_trans; [exact Hm | apply Hk].
  - exact Hm.
Qed.

Lemma keeps_ret {A} (a : A) : keeps same_data (ret a).
Proof. intros w. apply same_data_refl. Qed.

Lemma keeps_throw {A} (e : Err) : keeps same_data (@throw A e).
Proof. intros w. apply same_data_refl. Qed.

Lemma keeps_get {A} (field : World -> A) : keeps same_data (get field).
Proof. intros w. apply same_data_refl. Qed.

Lemma keeps_print (l : Line) : keeps same_data (print l).
Proof. intros w. split; reflexivity. Qed.

Lemma keeps_request (c : Call) : keeps same_data (request c).
Proof.
  intros w. unfold request.
  destruct (replies w) as [|[|millis] rs]; split; reflexivity.
Qed.

Ltac reads :=
  repeat first
    [ apply keeps_bind; [| intros ?]
    | apply keeps_ret
    | apply keeps_throw
    | apply keeps_get
    | apply keeps_print
    | apply keeps_request
    | match goal with
      | |- keeps same_data (match ?x with _ => _ end) => destruct x
      end ].

Lemma keeps_toArray (cur : Mongo.FindCursor) :
  keeps same_data (books.toArray cur).
Proof. unfold books.toArray. reads. Qed.

Lemma keeps_aggregate {k v : Mongo.Ty} (pipeline : Mongo.Pipeline k v) :
  keeps same_data (books.aggregate pipeline).
Proof. unfold books.aggregate. reads. Qed.

(** X4. The find, sort, page and aggregation functions never change the
    collection or its indexes, whether the server answers or rejects the
    call and whatever the arguments. *)
Theorem read_only_operations
        (year : Z) (authorName : string) (order : option string)
        (page pageSize : option Z) (op : Async unit) (w : World) :
  In op [findAllBooks; findAfterYear year; findByAuthor authorName;
         findInStockAfter2010; projectTitleAuthorPrice; sortByPrice order;
         paginateBooks page pageSize; averagePriceByGenre;
         authorWithMostBooks; booksByDecade] ->
  collection (snd (op w)) = collection w
  /\ indexes (snd (op w)) = indexes w.
Proof.
  intros Hop. change (same_data w (snd (op w))). revert w.
  change (keeps same_data op).
  simpl in Hop.
  repeat (destruct Hop as [<- | Hop];
          [ unfold findAllBooks, findAfterYear, findByAuthor,
              findInStockAfter2010, projectTitleAuthorPrice, sortByPrice,
              paginateBooks, averagePriceByGenre, authorWithMostBooks,
              booksByDecade, console_log, console_table;
            repeat first [ apply keeps_toArray | apply keeps_aggregate
                         | progress reads ] | ]).
  destruct Hop.
Qed.

Lemma read_only_operations_witness :
  In (paginateBooks (Some 0) (Some 5))
     [findAllBooks; findAfterYear 1959; findByAuthor "George Orwell";
      findInStockAfter2010; projectTitleAuthorPrice; sortByPrice (Some "asc");
      paginateBooks (Some 0) (Some 5); averagePriceByGenre;
      authorWithMostBooks; booksByDecade]
  /\ collection (snd (paginateBooks (Some 0) (Some 5) failing_shelf)) = shelf
  /\ indexes (snd (paginateBooks (Some 0) (Some 5) failing_shelf)) = [].
Proof.
  split; [simpl; tauto |].
  apply (read_only_operations 1959 "George Orwell" (Some "asc")
           (Some 0) (Some 5) (paginateBooks (Some 0) (Some 5)) failing_shelf).
  simpl. tauto.
Defined.

(** ** Pages *)

Lemma paginateBooks_accepted (page pageSize : Z) (w : World) :
  Z.abs page <= 2 ^ 53 ->
  0 <= (page - 1) * pageSize <= 2 ^ 53 ->
  accepted w = true ->
  paginateBooks (Some page) (Some pageSize) w
  = (Returned tt,
     printed [Log [Str (nl ++ "📄 Page " ++ show page ++ " (showing "
                           ++ show pageSize ++ " books):")];
              Log [Docs (Mongo.limited pageSize
                           (skipn (Z.to_nat ((page - 1) * pageSize))
                                  (collection w)))]]
             (sent (FindCall (books.limit pageSize
                                (books.skip ((page - 1) * pageSize)
                                            (books.find []))))
                   w)).
Proof.
  intros Hpage Hoff Hacc. unfold paginateBooks. simpl or_default.
  rewrite (offset_exact page pageSize) by bounds.
  unfold bind at 1.
  rewrite (toArray_accepted
             (books.limit pageSize
                (books.skip ((page - 1) * pageSize) (books.find [])))
             (Mongo.limited pageSize
                (skipn (Z.to_nat ((page - 1) * pageSize)) (collection w)))
             w Hacc).
  - apply log_twice.
  - unfold Mongo.execute. simpl. rewrite find_all.
    rewrite (skipped_nonnegative _ _ (proj1 Hoff)). reflexivity.
Qed.

(** X5. For a page below 1 and a page size of 1 or more, both within
    2^53 in magnitude as their product is, the skip is negative: the find
    is rejected, paginateBooks throws the error of that call and prints
    nothing, not even the page header. *)
Theorem paginateBooks_page_below_one (page pageSize : Z) (w : World) :
  - 2 ^ 53 <= page < 1 ->
  1 <= pageSize <= 2 ^ 53 ->
  - 2 ^ 53 <= (page - 1) * pageSize ->
  paginateBooks (Some page) (Some pageSize) w
  = (Thrown (ServerError
               (FindCall (books.limit pageSize
                            (books.skip ((page - 1) * pageSize)
                                        (books.find []))))),
     sent (FindCall (books.limit pageSize
                       (books.skip ((page - 1) * pageSize)
                                   (books.find []))))
          w).
Proof.
  intros Hpage Hsize Hbound. unfold paginateBooks. simpl or_default.
  rewrite (offset_exact page pageSize) by bounds.
  set (cur := books.limit pageSize
                (books.skip ((page - 1) * pageSize) (books.find []))).
  assert (Hnone : forall c, Mongo.execute cur c = None).
  { intros c. unfold Mongo.execute, cur. simpl. unfold Mongo.skipped.
    destruct (Z.ltb_spec ((page - 1) * pageSize) 0) as [E|E];
      [reflexivity | nia]. }
  unfold bind at 1. unfold books.toArray. unfold bind at 1.
  destruct (accepted w) eqn:Hacc.
  - rewrite (request_accepted _ _ Hacc). unfold bind, get.
    rewrite Hnone. reflexivity.
  - rewrite (request_rejected _ _ Hacc). reflexivity.
Qed.

Lemma paginateBooks_page_below_one_witness :
  - 2 ^ 53 <= 0 < 1 /\ 1 <= 5 <= 2 ^ 53 /\ - 2 ^ 53 <= (0 - 1) * 5
  /\ paginateBooks (Some 0) (Some 5) (quiet shelf)
     = (Thrown (ServerError
                  (FindCall (Mongo.mkFindCursor [] None None (-5) 5))),
        sent (FindCall (Mongo.mkFindCursor [] None None (-5) 5))
             (quiet shelf)).
Proof.
  split; [bounds | split; [bounds | split; [bounds |]]].
  apply (paginateBooks_page_below_one 0 5 (quiet shelf)); bounds.
Defined.

(** X6. With a page size from 1 to 2^53 no document is lost between
    pages: the document at position i of the collection (from 0, below
    2^53) is printed on page i / pageSize + 1, at position i mod pageSize
    of that page. *)
Theorem paginateBooks_covers (pageSize : Z) (i : nat) (b : Book) (w : World) :
  1 <= pageSize <= 2 ^ 53 ->
  Z.of_nat i < 2 ^ 53 ->
  accepted w = true ->
  nth_error (collection w) i = Some b ->
  exists cur results,
    paginateBooks (Some (Z.of_nat i / pageSize + 1)) (Some pageSize) w
    = (Returned tt,
       printed [Log [Str (nl ++ "📄 Page "
                             ++ show (Z.of_nat i / pageSize + 1)
                             ++ " (showing " ++ show pageSize ++ " books):")];
                Log [Docs results]]
               (sent (FindCall cur) w))
    /\ nth_error results (Z.to_nat (Z.of_nat i mod pageSize)) = Some b.
Proof.
  intros Hsize Hi Hacc Hnth.
  set (q := Z.of_nat i / pageSize).
  assert (Hq : 0 <= q) by (apply Z.div_pos; lia).
  pose proof (Z.div_mod (Z.of_nat i) pageSize ltac:(lia)) as Hdm.
  pose proof (Z.mod_pos_bound (Z.of_nat i) pageSize ltac:(lia)) as Hmod.
  fold q in Hdm.
  assert (Hqi : q <= Z.of_nat i) by nia.
  assert (Hoff : 0 <= (q + 1 - 1) * pageSize <= 2 ^ 53).
  { replace (q + 1 - 1) with q by lia. split; [nia |].
    apply Z.le_trans with (Z.of_nat i); [nia | lia]. }
  eexists. eexists. split.
  - apply (paginateBooks_accepted (q + 1) pageSize w);
      [| exact Hoff | exact Hacc].
    rewrite Z.abs_eq by lia. lia.
  - rewrite limited_positive by lia.
    rewrite nth_error_firstn.
    destruct (Nat.ltb_spec (Z.to_nat (Z.of_nat i mod pageSize))
                           (Z.to_nat pageSize)) as [Hlt|Hge]; [| lia].
    rewrite nth_error_skipn.
    replace (Z.to_nat ((q + 1 - 1) * pageSize)
             + Z.to_nat (Z.of_nat i mod pageSize))%nat with i; [exact Hnth |].
    nia.
Qed.

Lemma paginateBooks_covers_witness :
  1 <= 2 <= 2 ^ 53 /\ Z.of_nat 2 < 2 ^ 53 /\ accepted (quiet shelf) = true
  /\ nth_error (collection (quiet shelf)) 2 = Some moby_dick
  /\ exists cur results,
       paginateBooks (Some 2) (Some 2) (quiet shelf)
       = (Returned tt,
          printed [Log [Str (nl ++ "📄 Page 2 (showing 2 books):")];
                   Log [Docs results]]
                  (sent (FindCall cur) (quiet shelf)))
       /\ nth_error results 0 = Some moby_dick.
Proof.
  split; [bounds | split; [simpl; bounds | split; [reflexivity | split;
    [reflexivity |]]]].
  apply (paginateBooks_covers 2 2 moby_dick (quiet shelf));
    [bounds | simpl; bounds | reflexivity | reflexivity].
Defined.

(** X7. For a page and a page size from 1 to 2^53, with an offset
    (page-1)*pageSize up to 2^53, a page that starts at or past the end of
    the collection is printed as an empty list; it is no error. *)
Theorem paginateBooks_past_the_end (page pageSize : Z) (w : World) :
  1 <= page <= 2 ^ 53 ->
  1 <= pageSize <= 2 ^ 53 ->
  (page - 1) * pageSize <= 2 ^ 53 ->
  accepted w = true ->
  Z.of_nat (List.length (collection w)) <= (page - 1) * pageSize ->
  exists cur,
    paginateBooks (Some page) (Some pageSize) w
    = (Returned tt,
       printed [Log [Str (nl ++ "📄 Page " ++ show page ++ " (showing "
                             ++ show pageSize ++ " books):")];
                Log [Docs []]]
               (sent (FindCall cur) w)).
Proof.
  intros Hpage Hsize Hbound Hacc Hend.
  assert (Hoff : 0 <= (page - 1) * pageSize <= 2 ^ 53) by (split; [nia | lia]).
  eexists. rewrite (paginateBooks_accepted page pageSize w) by
    (try exact Hoff; try exact Hacc; rewrite Z.abs_eq; lia).
  rewrite skipn_all2 by lia.
  rewrite limited_positive by lia. rewrite firstn_nil. reflexivity.
Qed.

Lemma paginateBooks_past_the_end_witness :
  1 <= 3 <= 2 ^ 53 /\ 1 <= 2 <= 2 ^ 53 /\ (3 - 1) * 2 <= 2 ^ 53
  /\ accepted (quiet shelf) = true
  /\ Z.of_nat (List.length (collection (quiet shelf))) <= (3 - 1) * 2
  /\ exists cur,
       paginateBooks (Some 3) (Some 2) (quiet shelf)
       = (Returned tt,
          printed [Log [Str (nl ++ "📄 Page 3 (showing 2 books):")];
                   Log [Docs []]]
                  (sent (FindCall cur) (quiet shelf))).
Proof.
  split; [bounds | split; [bounds | split; [bounds | split;
    [reflexivity | split; [simpl; lia |]]]]].
  apply (paginateBooks_past_the_end 3 2 (quiet shelf));
    [bounds | bounds | bounds | reflexivity | simpl; lia].
Defined.

(** ** Updating and deleting *)

Lemma matches_set_price (f : Mongo.Filter) (p : Q) (b : Book) :
  Mongo.matches f (Mongo.set_price p b) = Mongo.matches f b.
Proof.
  unfold Mongo.matches. induction f as [|c f IH]; [reflexivity |].
  simpl. rewrite IH. destruct c; reflexivity.
Qed.

Lemma Qeq_bool_refl (p : Q) : Qeq_bool p p = true.
Proof. apply Qeq_bool_iff. apply Qeq_refl. Qed.

Lemma Qeq_bool_false (a p : Q) : ~ (a == p)%Q -> Qeq_bool a p = false.
Proof.
  intros Hne. destruct (Qeq_bool a p) eqn:E; [| reflexivity].
  exfalso. apply Hne. apply Qeq_bool_iff. exact E.
Qed.

(** A second update with the same filter and price modifies nothing. *)
Lemma updateOne_again (f : Mongo.Filter) (p : Q) (c : Mongo.Collection) :
  exists result,
    Mongo.updateOne_set_price f p (snd (Mongo.updateOne_set_price f p c))
    = (result, snd (Mongo.updateOne_set_price f p c))
    /\ Mongo.modifiedCount result = 0.
Proof.
  induction c as [|b r IH]; simpl.
  - eexists. split; reflexivity.
  - destruct (Mongo.matches f b) eqn:Hm.
    + destruct (Qeq_bool (price b) p) eqn:Hp; simpl.
      * rewrite Hm, Hp. eexists. split; reflexivity.
      * rewrite matches_set_price, Hm, Qeq_bool_refl.
        eexists. split; reflexivity.
    + destruct IH as (result & Hagain & Hcount).
      destruct (Mongo.updateOne_set_price f p r) as [res r'] eqn:Er.
      simpl in *. rewrite Hm, Hagain. eexists.
      split; [reflexivity | exact Hcount].
Qed.

Lemma updateOne_but_price (f : Mongo.Filter) (p : Q) (c : Mongo.Collection) :
  map but_price (snd (Mongo.updateOne_set_price f p c)) = map but_price c.
Proof.
  induction c as [|b r IH]; simpl; [reflexivity |].
  destruct (Mongo.matches f b).
  - destruct (Qeq_bool (price b) p); reflexivity.
  - destruct (Mongo.updateOne_set_price f p r) as [res r']. simpl in *.
    f_equal. exact IH.
Qed.

Lemma all_accepted_next (n : nat) (w w' : World) :
  all_accepted (S n) (replies w) = true ->
  replies w' = tl (replies w) ->
  accepted w = true /\ all_accepted n (replies w') = true.
Proof.
  unfold accepted. intros Hall ->.
  destruct (replies w) as [|[|millis] rs]; simpl in *.
  - split; [reflexivity | destruct n; reflexivity].
  - discriminate.
  - split; [reflexivity | exact Hall].
Qed.

Lemma all_accepted_one (w : World) :
  all_accepted 1 (replies w) = true -> accepted w = true.
Proof.
  unfold accepted. destruct (replies w) as [|[|millis] rs]; simpl; congruence.
Qed.

(** X8. When the first document of the title has another price,
    updateBookPrice prints "Success" and sets the price of that document
    alone: the documents before and after it, later documents of the same
    title included, stay as they are. *)
Theorem updateBookPrice_first_match_only (t : string) (p : Q) (w : World)
        (pre : list Book) (b : Book) (post : list Book) :
  accepted w = true ->
  collection w = (pre ++ b :: post)%list ->
  (forall x, In x pre -> title x <> t) ->
  title b = t ->
  ~ (price b == p)%Q ->
  updateBookPrice t p w
  = (Returned tt,
     printed [Log [Str (nl ++ "Updated price for " ++ dquote ++ t
                           ++ dquote ++ " →");
                   Str "Success"]]
             (stored (pre ++ Mongo.set_price p b :: post)%list
                     (sent (UpdateOneCall [Mongo.TitleEq t] p) w))).
Proof.
  intros Hacc Hc Hpre Hb Hp.
  apply (updateBookPrice_accepted t p w Hacc (Mongo.mkUpdateResult 1 1)).
  rewrite Hc.
  rewrite (updateOne_first_match _ p pre b post
             (no_title_no_match t pre Hpre)).
  - rewrite (Qeq_bool_false _ _ Hp). reflexivity.
  - rewrite matches_title. apply String.eqb_eq. exact Hb.
Qed.

Lemma updateBookPrice_first_match_only_witness :
  accepted (quiet [book_a; book_b; book_b]) = true
  /\ updateBookPrice "Book B" 7.99 (quiet [book_a; book_b; book_b])
     = (Returned tt,
        printed [Log [Str (nl ++ "Updated price for " ++ dquote ++ "Book B"
                              ++ dquote ++ " →");
                      Str "Success"]]
                (stored [book_a; Mongo.set_price 7.99 book_b; book_b]
                        (sent (UpdateOneCall [Mongo.TitleEq "Book B"] 7.99)
                              (quiet [book_a; book_b; book_b])))).
Proof.
  split; [reflexivity |].
  apply (updateBookPrice_first_match_only "Book B" 7.99
           (quiet [book_a; book_b; book_b]) [book_a] book_b [book_b]);
    try reflexivity.
  - intros x [<- | []]. discriminate.
  - intros H. vm_compute in H. discriminate H.
Defined.

(** X9. Run twice in a row with the same title and price, updateBookPrice
    prints "No match found" the second time, whatever it printed the first
    time, and the second run leaves the collection as the first left it. *)
Theorem updateBookPrice_twice (t : string) (p : Q) (w : World) :
  all_accepted 2 (replies w) = true ->
  exists verdict,
    fst ((updateBookPrice t p ;; updateBookPrice t p) w) = Returned tt
    /\ console (snd ((updateBookPrice t p ;; updateBookPrice t p) w))
       = (console w ++
            [Log [Str (nl ++ "Updated price for " ++ dquote ++ t
                          ++ dquote ++ " →");
                  Str verdict];
             Log [Str (nl ++ "Updated price for " ++ dquote ++ t
                          ++ dquote ++ " →");
                  Str "No match found"]])%list
    /\ collection (snd ((updateBookPrice t p ;; updateBookPrice t p) w))
       = collection (snd (updateBookPrice t p w)).
Proof.
  intros Hall.
  destruct (Mongo.updateOne_set_price [Mongo.TitleEq t] p (collection w))
    as [result c'] eqn:Hup.
  pose proof (updateOne_again [Mongo.TitleEq t] p (collection w)) as Hagain.
  rewrite Hup in Hagain. simpl in Hagain.
  destruct Hagain as (result2 & Hup2 & Hcount2).
  set (w1 := printed
               [Log [Str (nl ++ "Updated price for " ++ dquote ++ t
                             ++ dquote ++ " →");
                     Str (if Mongo.modifiedCount result =? 0
                          then "No match found" else "Success")]]
               (stored c' (sent (UpdateOneCall [Mongo.TitleEq t] p) w))).
  destruct (all_accepted_next 1 w w1 Hall eq_refl) as [Hacc Hacc1].
  apply all_accepted_one in Hacc1.
  exists (if Mongo.modifiedCount result =? 0 then "No match found"
          else "Success").
  unfold bind.
  rewrite (updateBookPrice_accepted t p w Hacc result c' Hup). fold w1.
  rewrite (updateBookPrice_accepted t p w1 Hacc1 result2 c' Hup2).
  rewrite Hcount2. simpl. rewrite <- app_assoc.
  repeat split.
Qed.

Lemma updateBookPrice_twice_witness :
  all_accepted 2 (replies (quiet shelf)) = true
  /\ exists verdict,
       fst ((updateBookPrice "Book B" 7.99 ;; updateBookPrice "Book B" 7.99)
              (quiet shelf)) = Returned tt
       /\ console
            (snd ((updateBookPrice "Book B" 7.99 ;;
                   updateBookPrice "Book B" 7.99) (quiet shelf)))
          = [Log [Str (nl ++ "Updated price for " ++ dquote ++ "Book B"
                          ++ dquote ++ " →");
                  Str verdict];
             Log [Str (nl ++ "Updated price for " ++ dquote ++ "Book B"
                          ++ dquote ++ " →");
                  Str "No match found"]].
Proof.
  split; [reflexivity |].
  destruct (updateBookPrice_twice "Book B" 7.99 (quiet shelf) eq_refl)
    as (verdict & Hret & Hconsole & _).
  exists verdict. split; [exact Hret | exact Hconsole].
Defined.

(** X10. On every path, with the call answered or rejected, updateBookPrice
    leaves the number of documents, their order and every field but the
    price as they were. *)
Theorem updateBookPrice_only_prices (t : string) (p : Q) (w : World) :
  map but_price (collection (snd (updateBookPrice t p w)))
  = map but_price (collection w).
Proof.
  destruct (accepted w) eqn:Hacc.
  - destruct (Mongo.updateOne_set_price [Mongo.TitleEq t] p (collection w))
      as [result c'] eqn:Hup.
    rewrite (updateBookPrice_accepted t p w Hacc result c' Hup). simpl.
    pose proof (updateOne_but_price [Mongo.TitleEq t] p (collection w)) as H.
    rewrite Hup in H. exact H.
  - unfold updateBookPrice, books.updateOne, bind.
    rewrite (request_rejected _ _ Hacc). reflexivity.
Qed.

Lemma deleteOne_others (t : string) (c : Mongo.Collection) :
  filter (fun b => negb (String.eqb (title b) t))
         (snd (Mongo.deleteOne [Mongo.TitleEq t] c))
  = filter (fun b => negb (String.eqb (title b) t)) c.
Proof.
  induction c as [|b r IH]; [reflexivity |].
  cbn [Mongo.deleteOne]. rewrite matches_title.
  destruct (String.eqb (title b) t) eqn:E; simpl.
  - rewrite E. reflexivity.
  - destruct (Mongo.deleteOne [Mongo.TitleEq t] r) as [res r']. simpl in *.
    rewrite E. simpl. f_equal. exact IH.
Qed.

Lemma deleteOne_one_less (t : string) (c : Mongo.Collection) :
  List.length (filter (fun b => String.eqb (title b) t)
                      (snd (Mongo.deleteOne [Mongo.TitleEq t] c)))
  = pred (List.length (filter (fun b => String.eqb (title b) t) c)).
Proof.
  induction c as [|b r IH]; [reflexivity |].
  cbn [Mongo.deleteOne]. rewrite matches_title.
  destruct (String.eqb (title b) t) eqn:E; simpl.
  - rewrite E. reflexivity.
  - destruct (Mongo.deleteOne [Mongo.TitleEq t] r) as [res r']. simpl in *.
    rewrite E. exact IH.
Qed.

(** X11. On every path deleteBookByTitle keeps every document of another
    title, in order; and when the call is answered the number of documents
    of the title goes down by one, or stays 0: a second document of the
    same title survives. *)
Theorem deleteBookByTitle_others_kept (t : string) (w : World) :
  filter (fun b => negb (String.eqb (title b) t))
         (collection (snd (deleteBookByTitle t w)))
  = filter (fun b => negb (String.eqb (title b) t)) (collection w)
  /\ (accepted w = true ->
      List.length (filter (fun b => String.eqb (title b) t)
                          (collection (snd (deleteBookByTitle t w))))
      = pred (List.length (filter (fun b => String.eqb (title b) t)
                                  (collection w)))).
Proof.
  destruct (Mongo.deleteOne [Mongo.TitleEq t] (collection w))
    as [result c'] eqn:Hdel.
  pose proof (deleteOne_others t (collection w)) as Hothers.
  pose proof (deleteOne_one_less t (collection w)) as Hless.
  rewrite Hdel in Hothers, Hless. simpl in Hothers, Hless.
  destruct (accepted w) eqn:Hacc.
  - rewrite (deleteBookByTitle_accepted t w Hacc result c' Hdel). simpl.
    split; [exact Hothers | intros _; exact Hless].
  - unfold deleteBookByTitle, books.deleteOne, bind.
    rewrite (request_rejected _ _ Hacc). simpl.
    split; [reflexivity | discriminate].
Qed.

Lemma deleteBookByTitle_others_kept_witness :
  accepted (quiet [book_b; book_a; book_b]) = true
  /\ collection (snd (deleteBookByTitle "Book B"
                        (quiet [book_b; book_a; book_b])))
     = [book_a; book_b]
  /\ List.length
       (filter (fun b => String.eqb (title b) "Book B")
               (collection (snd (deleteBookByTitle "Book B"
                                   (quiet [book_b; book_a; book_b])))))
     = 1%nat.
Proof.
  split; [reflexivity | split; [reflexivity |]].
  apply (proj2 (deleteBookByTitle_others_kept "Book B"
                  (quiet [book_b; book_a; book_b]))).
  reflexivity.
Defined.

(** X12. When the server rejects the call, updateBookPrice and
    deleteBookByTitle throw the error of that call: no verdict is printed
    and the collection is as it was. *)
Theorem update_and_delete_rejected (t : string) (p : Q) (w : World) :
  accepted w = false ->
  updateBookPrice t p w
  = (Thrown (ServerError (UpdateOneCall [Mongo.TitleEq t] p)),
     sent (UpdateOneCall [Mongo.TitleEq t] p) w)
  /\ deleteBookByTitle t w
     = (Thrown (ServerError (DeleteOneCall [Mongo.TitleEq t])),
        sent (DeleteOneCall [Mongo.TitleEq t]) w).
Proof.
  intros Hacc. split.
  - unfold updateBookPrice, books.updateOne, bind.
    rewrite (request_rejected _ _ Hacc). reflexivity.
  - unfold deleteBookByTitle, books.deleteOne, bind.
    rewrite (request_rejected _ _ Hacc). reflexivity.
Qed.

Lemma update_and_delete_rejected_witness :
  accepted (mkWorld shelf [] Connected [] [] [Rejects]) = false
  /\ console (snd (updateBookPrice "Book B" 7.99
                     (mkWorld shelf [] Connected [] [] [Rejects]))) = []
  /\ collection (snd (deleteBookByTitle "Book B"
                        (mkWorld shelf [] Connected [] [] [Rejects]))) = shelf.
Proof.
  split; [reflexivity |].
  destruct (update_and_delete_rejected "Book B" 7.99
              (mkWorld shelf [] Connected [] [] [Rejects]) eq_refl)
    as [Hup Hdel].
  rewrite Hup, Hdel. split; reflexivity.
Defined.

(** ** Creating indexes *)

Lemma spec_eqb_refl (spec : Mongo.IndexSpec) : Mongo.spec_eqb spec spec = true.
Proof. apply String.eqb_refl. Qed.

Lemma createIndex_again (spec : Mongo.IndexSpec) (ixs : list Mongo.IndexSpec) :
  Mongo.createIndex spec (Mongo.createIndex spec ixs)
  = Mongo.createIndex spec ixs.
Proof.
  unfold Mongo.createIndex.
  destruct (existsb (Mongo.spec_eqb spec) ixs) eqn:E.
  - rewrite E. reflexivity.
  - rewrite existsb_app. simpl. rewrite spec_eqb_refl, orb_true_r.
    reflexivity.
Qed.

Lemma createIndex_extends (spec : Mongo.IndexSpec)
      (ixs : list Mongo.IndexSpec) :
  exists added, Mongo.createIndex spec ixs = (ixs ++ added)%list.
Proof.
  unfold Mongo.createIndex.
  destruct (existsb (Mongo.spec_eqb spec) ixs).
  - exists []. rewrite app_nil_r. reflexivity.
  - exists [spec]. reflexivity.
Qed.

Lemma createIndex_named (spec : Mongo.IndexSpec)
      (ixs : list Mongo.IndexSpec) :
  In (Mongo.index_name spec)
     (map Mongo.index_name (Mongo.createIndex spec ixs)).
Proof.
  unfold Mongo.createIndex.
  destruct (existsb (Mongo.spec_eqb spec) ixs) eqn:E.
  - apply existsb_exists in E. destruct E as (x & Hx & Heq).
    apply String.eqb_eq in Heq. rewrite Heq. apply in_map. exact Hx.
  - rewrite map_app. apply in_or_app. right. left. reflexivity.
Qed.

Lemma createIndex_accepted (spec : Mongo.IndexSpec) (w : World) :
  accepted w = true ->
  books.createIndex spec w
  = (Returned (Mongo.index_name spec),
     indexed (Mongo.createIndex spec (indexes w))
             (sent (CreateIndexCall spec) w)).
Proof.
  intros Hacc. unfold books.createIndex, bind.
  rewrite (request_accepted _ _ Hacc). reflexivity.
Qed.

(** X13. createTitleIndex prints the name title_1 and leaves an index of
    that name on the collection, after the indexes that were there; run a
    second time it leaves the indexes as the first run left them. *)
Theorem createTitleIndex_idempotent (w : World) :
  all_accepted 2 (replies w) = true ->
  exists ixs added,
    createTitleIndex w
    = (Returned tt,
       printed [Log [Str (nl ++ "Created Index:"); Str "title_1"]]
               (indexed ixs (sent (CreateIndexCall [("title", 1)]) w)))
    /\ ixs = (indexes w ++ added)%list
    /\ In "title_1" (map Mongo.index_name ixs)
    /\ fst ((createTitleIndex ;; createTitleIndex) w) = Returned tt
    /\ indexes (snd ((createTitleIndex ;; createTitleIndex) w)) = ixs.
Proof.
  intros Hall.
  set (ixs := Mongo.createIndex [("title", 1)] (indexes w)).
  set (w1 := printed [Log [Str (nl ++ "Created Index:"); Str "title_1"]]
               (indexed ixs (sent (CreateIndexCall [("title", 1)]) w))).
  destruct (all_accepted_next 1 w w1 Hall eq_refl) as [Hacc Hacc1].
  apply all_accepted_one in Hacc1.
  destruct (createIndex_extends [("title", 1)] (indexes w)) as [added Hadd].
  assert (Hone : forall w0, accepted w0 = true ->
            createTitleIndex w0
            = (Returned tt,
               printed [Log [Str (nl ++ "Created Index:"); Str "title_1"]]
                 (indexed (Mongo.createIndex [("title", 1)] (indexes w0))
                          (sent (CreateIndexCall [("title", 1)]) w0)))).
  { intros w0 H0. unfold createTitleIndex, bind.
    rewrite (createIndex_accepted _ _ H0). reflexivity. }
  exists ixs, added. split; [apply (Hone w Hacc) |].
  split; [exact Hadd |].
  split; [apply (createIndex_named [("title", 1)]) |].
  unfold bind. rewrite (Hone w Hacc). fold ixs. fold w1.
  rewrite (Hone w1 Hacc1). simpl.
  split; [reflexivity |]. apply createIndex_again.
Qed.

Lemma createTitleIndex_idempotent_witness :
  all_accepted 2 (replies (quiet shelf)) = true
  /\ exists ixs added,
       createTitleIndex (quiet shelf)
       = (Returned tt,
          printed [Log [Str (nl ++ "Created Index:"); Str "title_1"]]
                  (indexed ixs (sent (CreateIndexCall [("title", 1)])
                                     (quiet shelf))))
       /\ ixs = ([] ++ added)%list
       /\ indexes (snd ((createTitleIndex ;; createTitleIndex) (quiet shelf)))
          = ixs.
Proof.
  split; [reflexivity |].
  destruct (createTitleIndex_idempotent (quiet shelf) eq_refl)
    as (ixs & added & Hrun & Hadd & _ & _ & Hagain).
  exists ixs, added. split; [exact Hrun | split; [exact Hadd | exact Hagain]].
Defined.

(** X14. createCompoundIndex prints the name author_1_published_year_-1 and
    leaves an index of that name after the indexes that were there; the
    title index, when there, is kept. *)
Theorem createCompoundIndex_adds (w : World) :
  accepted w = true ->
  exists ixs added,
    createCompoundIndex w
    = (Returned tt,
       printed [Log [Str "Created Compound Index:";
                     Str "author_1_published_year_-1"]]
               (indexed ixs
                  (sent (CreateIndexCall [("author", 1);
                                          ("published_year", -1)]) w)))
    /\ ixs = (indexes w ++ added)%list
    /\ In "author_1_published_year_-1" (map Mongo.index_name ixs)
    /\ (In "title_1" (map Mongo.index_name (indexes w)) ->
        In "title_1" (map Mongo.index_name ixs)).
Proof.
  intros Hacc.
  destruct (createIndex_extends [("author", 1); ("published_year", -1)]
                                (indexes w)) as [added Hadd].
  exists (Mongo.createIndex [("author", 1); ("published_year", -1)]
                            (indexes w)), added.
  split; [| split; [exact Hadd | split]].
  - unfold createCompoundIndex, bind.
    rewrite (createIndex_accepted _ _ Hacc). reflexivity.
  - apply (createIndex_named [("author", 1); ("published_year", -1)]).
  - intros Htitle. rewrite Hadd, map_app. apply in_or_app. left.
    exact Htitle.
Qed.

Lemma createCompoundIndex_adds_witness :
  accepted (indexed [[("title", 1)]] (quiet shelf)) = true
  /\ exists ixs added,
       createCompoundIndex (indexed [[("title", 1)]] (quiet shelf))
       = (Returned tt,
          printed [Log [Str "Created Compound Index:";
                        Str "author_1_published_year_-1"]]
                  (indexed ixs
                     (sent (CreateIndexCall [("author", 1);
                                             ("published_year", -1)])
                           (indexed [[("title", 1)]] (quiet shelf)))))
       /\ ixs = ([[("title", 1)]] ++ added)%list.
Proof.
  split; [reflexivity |].
  destruct (createCompoundIndex_adds (indexed [[("title", 1)]] (quiet shelf))
              eq_refl) as (ixs & added & Hrun & Hadd & _).
  exists ixs, added. split; [exact Hrun | exact Hadd].
Defined.

(** ** analyzeIndexPerformance, interrupted *)

(** X15. analyzeIndexPerformance drops the indexes first: when the server
    answers that call and then rejects the first explain or the createIndex
    that follows, the function throws and the collection is left with no
    index at all; the title index is not put back. *)
Theorem analyzeIndexPerformance_interrupted (k : nat) (w : World) :
  k = 1%nat \/ k = 2%nat ->
  all_accepted k (replies w) = true ->
  nth k (replies w) (Takes 0) = Rejects ->
  (exists c, fst (analyzeIndexPerformance w) = Thrown (ServerError c))
  /\ indexes (snd (analyzeIndexPerformance w)) = []
  /\ collection (snd (analyzeIndexPerformance w)) = collection w.
Proof.
  intros Hk Hall Hrej. destruct w as [c ixs cl con wi rs].
  simpl in Hall, Hrej.
  destruct Hk as [-> | ->].
  - destruct rs as [|[|m1] [|[|m2] rest]]; try discriminate;
      (split; [eexists; reflexivity | split; reflexivity]).
  - destruct rs as [|[|m1] [|[|m2] [|[|m3] rest]]]; try discriminate;
      (split; [eexists; reflexivity | split; reflexivity]).
Qed.

Lemma analyzeIndexPerformance_interrupted_witness :
  (1 = 1 \/ 1 = 2)%nat
  /\ all_accepted 1 [Takes 1; Rejects] = true
  /\ nth 1 [Takes 1; Rejects] (Takes 0) = Rejects
  /\ indexes
       (snd (analyzeIndexPerformance
               (mkWorld shelf [[("title", 1)]] Connected [] []
                        [Takes 1; Rejects]))) = [].
Proof.
  split; [left; reflexivity | split; [reflexivity | split; [reflexivity |]]].
  apply (analyzeIndexPerformance_interrupted 1
           (mkWorld shelf [[("title", 1)]] Connected [] []
                    [Takes 1; Rejects])).
  - left. reflexivity.
  - reflexivity.
  - reflexivity.
Defined.

(** ** run, when every call is answered *)

Lemma all_accepted_app (n m : nat) (rs : list Reply) :
  all_accepted (n + m) rs = true ->
  all_accepted n rs = true /\ all_accepted m (skipn n rs) = true.
Proof.
  revert rs. induction n as [|n IH]; intros rs H.
  - split; [reflexivity | exact H].
  - destruct rs as [|[|millis] rs]; simpl in *.
    + split; [reflexivity | destruct m; reflexivity].
    + discriminate.
    + apply IH. exact H.
Qed.

Lemma completes_bind {A B} cs1 cs2 fc1 fc2 fi1 fi2
      (m : Async A) (k : A -> Async B) :
  completes cs1 fc1 fi1 m ->
  (forall a, completes cs2 fc2 fi2 (k a)) ->
  completes (cs1 ++ cs2) (fun c => fc2 (fc1 c)) (fun i => fi2 (fi1 i))
            (bind m k).
Proof.
  intros Hm Hk w Hall. rewrite length_app in Hall.
  apply all_accepted_app in Hall. destruct Hall as [H1 H2].
  destruct (Hm w H1) as ((a & Ha) & Hw & Hr & Hc & Hi & Hs).
  unfold bind. destruct (m w) as [r w1]. simpl in *. subst r.
  rewrite <- Hr in H2.
  destruct (Hk a w1 H2) as (Hret & Hw2 & Hr2 & Hc2 & Hi2 & Hs2).
  split; [exact Hret |].
  rewrite Hw2, Hw, Hr2, Hr, Hc2, Hc, Hi2, Hi, Hs2, Hs.
  rewrite length_app, skipn_skipn, <- app_assoc,
    (Nat.add_comm (List.length cs2)).
  repeat split.
Qed.

Lemma completes_print (l : Line) :
  completes [] (fun c => c) (fun i => i) (print l).
Proof.
  intros w _. simpl. rewrite app_nil_r.
  split; [exists tt; reflexivity | repeat split].
Qed.

Lemma completes_toArray (cur : Mongo.FindCursor) :
  0 <= Mongo.c_skip cur ->
  completes [FindCall cur] (fun c => c) (fun i => i) (books.toArray cur).
Proof.
  intros Hskip w Hall. apply all_accepted_one in Hall.
  assert (Hex : exists docs, Mongo.execute cur (collection w) = Some docs).
  { unfold Mongo.execute. rewrite (skipped_nonnegative _ _ Hskip).
    eexists. reflexivity. }
  destruct Hex as [docs Hex].
  rewrite (toArray_accepted _ _ _ Hall Hex). simpl.
  split; [exists docs; reflexivity | repeat split].
Qed.

Lemma completes_updateOne (f : Mongo.Filter) (p : Q) :
  completes [UpdateOneCall f p]
            (fun c => snd (Mongo.updateOne_set_price f p c)) (fun i => i)
            (books.updateOne f p).
Proof.
  intros w Hall. apply all_accepted_one in Hall.
  unfold books.updateOne, bind. rewrite (request_accepted _ _ Hall).
  unfold get.
  change (collection (sent (UpdateOneCall f p) w)) with (collection w).
  destruct (Mongo.updateOne_set_price f p (collection w)) as [result c'].
  simpl. split; [exists result; reflexivity | repeat split].
Qed.

Lemma completes_deleteOne (f : Mongo.Filter) :
  completes [DeleteOneCall f] (fun c => snd (Mongo.deleteOne f c))
            (fun i => i) (books.deleteOne f).
Proof.
  intros w Hall. apply all_accepted_one in Hall.
  unfold books.deleteOne, bind. rewrite (request_accepted _ _ Hall).
  unfold get.
  change (collection (sent (DeleteOneCall f) w)) with (collection w).
  destruct (Mongo.deleteOne f (collection w)) as [result c'].
  simpl. split; [exists result; reflexivity | repeat split].
Qed.

Lemma completes_aggregate {k v : Mongo.Ty} (pipeline : Mongo.Pipeline k v) :
  completes [AggregateCall pipeline] (fun c => c) (fun i => i)
            (books.aggregate pipeline).
Proof.
  intros w Hall. apply all_accepted_one in Hall.
  rewrite (aggregate_accepted _ _ Hall). simpl.
  split; [eexists; reflexivity | repeat split].
Qed.

Lemma completes_createIndex (spec : Mongo.IndexSpec) :
  completes [CreateIndexCall spec] (fun c => c) (Mongo.createIndex spec)
            (books.createIndex spec).
Proof.
  intros w Hall. apply all_accepted_one in Hall.
  rewrite (createIndex_accepted _ _ Hall). simpl.
  split; [eexists; reflexivity | repeat split].
Qed.

Lemma completes_dropIndexes :
  completes [DropIndexesCall] (fun c => c) (fun _ => []) books.dropIndexes.
Proof.
  intros w Hall. apply all_accepted_one in Hall.
  unfold books.dropIndexes, bind. rewrite (request_accepted _ _ Hall).
  simpl. split; [exists tt; reflexivity | repeat split].
Qed.

Lemma completes_explain (cur : Mongo.FindCursor) :
  completes [ExplainCall (Mongo.c_filter cur)] (fun c => c) (fun i => i)
            (books.explain cur).
Proof.
  intros w Hall. apply all_accepted_one in Hall.
  unfold books.explain, bind. rewrite (request_accepted _ _ Hall).
  simpl. split; [eexists; reflexivity | repeat split].
Qed.

Lemma completes_as {A} cs fc fi cs' fc' fi' (m : Async A) :
  completes cs fc fi m ->
  cs = cs' -> (forall c, fc c = fc' c) -> (forall i, fi i = fi' i) ->
  completes cs' fc' fi' m.
Proof.
  intros Hm <- Hfc Hfi w Hall.
  destruct (Hm w Hall) as (Hret & Hw & Hr & Hc & Hi & Hs).
  rewrite <- Hfc, <- Hfi. repeat split; assumption.
Qed.

Ltac completing :=
  repeat first
    [ apply completes_print
    | apply completes_toArray; vm_compute; discriminate
    | apply completes_updateOne
    | apply completes_deleteOne
    | apply completes_aggregate
    | apply completes_createIndex
    | apply completes_dropIndexes
    | apply completes_explain
    | eapply completes_bind; [| intros ?] ].

Lemma operations_complete :
  completes
    [FindCall (books.find []);
     FindCall (books.find [Mongo.PublishedYearGt 1959]);
     FindCall (books.find [Mongo.AuthorEq "George Orwell"]);
     UpdateOneCall [Mongo.TitleEq "Wuthering Heights"] (Double.round 7.99);
     DeleteOneCall [Mongo.TitleEq "Moby Dick"];
     FindCall (books.find [Mongo.InStockEq true; Mongo.PublishedYearGt 2010]);
     FindCall (books.find_with []
                 [("title", 1); ("author", 1); ("price", 1); ("_id", 0)]);
     FindCall (books.sort (Mongo.ByPrice 1) (books.find []));
     FindCall (books.limit 5 (books.skip 0 (books.find [])));
     AggregateCall averagePriceByGenre_pipeline;
     AggregateCall authorWithMostBooks_pipeline;
     AggregateCall booksByDecade_pipeline;
     CreateIndexCall [("title", 1)];
     CreateIndexCall [("author", 1); ("published_year", -1)];
     DropIndexesCall;
     ExplainCall [Mongo.TitleEq "1984"];
     CreateIndexCall [("title", 1)];
     ExplainCall [Mongo.TitleEq "1984"]]
    (fun c => snd (Mongo.deleteOne [Mongo.TitleEq "Moby Dick"]
                     (snd (Mongo.updateOne_set_price
                             [Mongo.TitleEq "Wuthering Heights"]
                             (Double.round 7.99) c))))
    (fun _ => [[("title", 1)]])
    (console_log [Str (nl ++ "Connected to plp_bookstore database ✅")] ;;
     findAllBooks ;;
     findAfterYear 1959 ;;
     findByAuthor "George Orwell" ;;
     updateBookPrice "Wuthering Heights" (Double.round 7.99) ;;
     deleteBookByTitle "Moby Dick" ;;
     findInStockAfter2010 ;;
     projectTitleAuthorPrice ;;
     sortByPrice (Some "asc") ;;
     paginateBooks (Some 1) (Some 5) ;;
     averagePriceByGenre ;;
     authorWithMostBooks ;;
     booksByDecade ;;
     createTitleIndex ;;
     createCompoundIndex ;;
     analyzeIndexPerformance).
Proof.
  eapply completes_as.
  - unfold findAllBooks, findAfterYear, findByAuthor, updateBookPrice,
      deleteBookByTitle, findInStockAfter2010, projectTitleAuthorPrice,
      sortByPrice, paginateBooks, averagePriceByGenre, authorWithMostBooks,
      booksByDecade, createTitleIndex, createCompoundIndex,
      analyzeIndexPerformance, console_log, console_table.
    simpl or_default. completing.
  - reflexivity.
  - intros c. reflexivity.
  - intros i. reflexivity.
Qed.

(** X16. When the server answers all twenty calls, run returns having sent
    them in the order of the source, one call per operation and four for
    analyzeIndexPerformance, between the connection call and the close
    call.  It leaves the collection as the one update and the one delete
    leave it, the connection closed, and the title index as the only
    index: the compound index that createCompoundIndex made is dropped by
    analyzeIndexPerformance and not made again. *)
Theorem run_all_answered (w : World) :
  all_accepted 20 (replies w) = true ->
  fst (run w) = Returned tt
  /\ wire (snd (run w))
     = (wire w ++
          [Connect;
           FindCall (books.find []);
           FindCall (books.find [Mongo.PublishedYearGt 1959]);
           FindCall (books.find [Mongo.AuthorEq "George Orwell"]);
           UpdateOneCall [Mongo.TitleEq "Wuthering Heights"]
                         (Double.round 7.99);
           DeleteOneCall [Mongo.TitleEq "Moby Dick"];
           FindCall (books.find [Mongo.InStockEq true;
                                 Mongo.PublishedYearGt 2010]);
           FindCall (books.find_with []
                       [("title", 1); ("author", 1); ("price", 1);
                        ("_id", 0)]);
           FindCall (books.sort (Mongo.ByPrice 1) (books.find []));
           FindCall (books.limit 5 (books.skip 0 (books.find [])));
           AggregateCall averagePriceByGenre_pipeline;
           AggregateCall authorWithMostBooks_pipeline;
           AggregateCall booksByDecade_pipeline;
           CreateIndexCall [("title", 1)];
           CreateIndexCall [("author", 1); ("published_year", -1)];
           DropIndexesCall;
           ExplainCall [Mongo.TitleEq "1984"];
           CreateIndexCall [("title", 1)];
           ExplainCall [Mongo.TitleEq "1984"];
           Close])%list
  /\ collection (snd (run w))
     = snd (Mongo.deleteOne [Mongo.TitleEq "Moby Dick"]
              (snd (Mongo.updateOne_set_price
                      [Mongo.TitleEq "Wuthering Heights"]
                      (Double.round 7.99) (collection w))))
  /\ indexes (snd (run w)) = [[("title", 1)]]
  /\ connection (snd (run w)) = Closed.
Proof.
  intros Hall.
  destruct (all_accepted_next 19 w (opened w) Hall eq_refl) as [Hacc H19].
  change 19%nat with (18 + 1)%nat in H19.
  apply all_accepted_app in H19. destruct H19 as [H18 H1].
  destruct (operations_complete (opened w) H18)
    as ((a & Ha) & Hw & Hr & Hc & Hi & _).
  rewrite run_blocks. unfold run_body. rewrite connect_then, Hacc.
  match type of Ha with
  | fst ?t = _ => destruct t as [r1 w1]
  end.
  cbn [fst snd] in Ha, Hw, Hr, Hc, Hi. subst r1.
  assert (Hclose : accepted w1 = true).
  { apply all_accepted_one. rewrite Hr. exact H1. }
  rewrite Hclose. simpl. rewrite Hw, Hc, Hi. simpl.
  rewrite <- !app_assoc. repeat split.
Qed.

Lemma run_all_answered_witness :
  all_accepted 20 (replies (quiet shelf)) = true
  /\ fst (run (quiet shelf)) = Returned tt
  /\ collection (snd (run (quiet shelf))) = [book_a; book_b]
  /\ indexes (snd (run (quiet shelf))) = [[("title", 1)]]
  /\ connection (snd (run (quiet shelf))) = Closed.
Proof.
  split; [reflexivity |].
  destruct (run_all_answered (quiet shelf) eq_refl)
    as (Hret & _ & Hc & Hi & Hs).
  split; [exact Hret | split; [exact Hc | split; [exact Hi | exact Hs]]].
Defined.

(** ** run, when a call is rejected *)

Lemma blames_returning {A} (m : Async A) :
  (forall w, exists a, fst (m w) = Returned a) -> blames_last_call m.
Proof.
  intros Hm w e He. destruct (Hm w) as [a Ha]. congruence.
Qed.

Lemma blames_request (c : Call) : blames_last_call (request c).
Proof.
  intros w e. unfold request.
  destruct (replies w) as [|[|millis] rs]; simpl; intros He;
    try discriminate He.
  inversion He. exists [], c. split; reflexivity.
Qed.

Lemma blames_bind {A B} (m : Async A) (k : A -> Async B) :
  queries_only m -> blames_last_call m ->
  (forall a, blames_last_call (k a)) ->
  blames_last_call (bind m k).
Proof.
  intros Hq Hm Hk w e. unfold bind.
  destruct (Hq w) as (qs & lines & Hw & _).
  specialize (Hm w e).
  destruct (m w) as [[a|e'] w1]; simpl in *.
  - intros He. destruct (Hk a w1 e He) as (pre & c & -> & Hwire).
    exists (qs ++ pre)%list, c. split; [reflexivity |].
    rewrite Hwire, Hw, <- !app_assoc. reflexivity.
  - intros He. apply Hm. inversion He. reflexivity.
Qed.

Lemma blames_toArray (cur : Mongo.FindCursor) :
  blames_last_call (books.toArray cur).
Proof.
  intros w e. unfold books.toArray, bind.
  destruct (accepted w) eqn:Hacc.
  - rewrite (request_accepted _ _ Hacc). unfold get.
    destruct (Mongo.execute cur (collection (sent (FindCall cur) w)));
      simpl; intros He; [discriminate He |].
    inversion He. exists [], (FindCall cur). split; reflexivity.
  - rewrite (request_rejected _ _ Hacc). simpl. intros He.
    inversion He. exists [], (FindCall cur). split; reflexivity.
Qed.

Ltac blaming :=
  repeat first
    [ apply blames_toArray
    | apply blames_request
    | apply blames_returning; intros ?; eexists; reflexivity
    | apply blames_bind;
      [ first [ apply qo_toArray | apply qo_aggregate | apply qo_createIndex
              | apply qo_explain | queries ]
      | | intros ? ]
    | match goal with
      | |- blames_last_call (match ?x with _ => _ end) => destruct x
      end ].

Lemma operations_blame :
  blames_last_call
    (console_log [Str (nl ++ "Connected to plp_bookstore database ✅")] ;;
     findAllBooks ;;
     findAfterYear 1959 ;;
     findByAuthor "George Orwell" ;;
     updateBookPrice "Wuthering Heights" (Double.round 7.99) ;;
     deleteBookByTitle "Moby Dick" ;;
     findInStockAfter2010 ;;
     projectTitleAuthorPrice ;;
     sortByPrice (Some "asc") ;;
     paginateBooks (Some 1) (Some 5) ;;
     averagePriceByGenre ;;
     authorWithMostBooks ;;
     booksByDecade ;;
     createTitleIndex ;;
     createCompoundIndex ;;
     analyzeIndexPerformance).
Proof.
  unfold findAllBooks, findAfterYear, findByAuthor, updateBookPrice,
    deleteBookByTitle, findInStockAfter2010, projectTitleAuthorPrice,
    sortByPrice, paginateBooks, averagePriceByGenre, authorWithMostBooks,
    booksByDecade, createTitleIndex, createCompoundIndex,
    analyzeIndexPerformance, books.updateOne, books.deleteOne,
    books.dropIndexes, books.aggregate, books.createIndex, books.explain,
    console_log, console_table.
  blaming.
Qed.

Lemma run_body_blames : blames_last_call run_body.
Proof.
  intros w e. unfold run_body. rewrite connect_then.
  destruct (accepted w).
  - intros He. destruct (operations_blame (opened w) e He)
      as (pre & c & -> & Hwire).
    exists (Connect :: pre), c. split; [reflexivity |].
    rewrite Hwire. simpl. rewrite <- app_assoc. reflexivity.
  - simpl. intros He. inversion He.
    exists [], Connect. split; reflexivity.
Qed.

(** X18. When the try block of run throws, the error is that of the last
    call sent: no operation is attempted after the one that failed, and the
    close call comes next.  The error is printed once, after what the
    operations before it printed, and the closing message follows when the
    close call is answered. *)
Theorem run_stops_at_failure (w : World) (e : Err) :
  fst (run_body w) = Thrown e ->
  exists pre c,
    e = ServerError c
    /\ wire (snd (run w)) = (wire w ++ pre ++ [c; Close])%list
    /\ console (snd (run w))
       = (console (snd (run_body w))
            ++ Error [Str "Error occurred:"; Failure (ServerError c)]
            :: (if accepted (snd (run_body w))
                then [Log [Str (nl ++ "MongoDB connection closed 💤")]]
                else []))%list.
Proof.
  intros He. destruct (run_body_blames w e He) as (pre & c & -> & Hwire).
  exists pre, c. split; [reflexivity |].
  rewrite run_blocks. destruct (run_body w) as [r1 w1].
  cbn [fst snd] in He, Hwire |- *. subst r1.
  destruct (accepted w1); simpl; rewrite Hwire, <- !app_assoc;
    split; reflexivity.
Qed.

Lemma run_stops_at_failure_witness :
  fst (run_body failing_shelf)
  = Thrown (ServerError (FindCall (books.find [Mongo.PublishedYearGt 1959])))
  /\ exists pre c,
       ServerError (FindCall (books.find [Mongo.PublishedYearGt 1959]))
       = ServerError c
       /\ wire (snd (run failing_shelf)) = (pre ++ [c; Close])%list.
Proof.
  split; [reflexivity |].
  destruct (run_stops_at_failure failing_shelf
              (ServerError (FindCall (books.find [Mongo.PublishedYearGt 1959])))
              eq_refl) as (pre & c & He & Hwire & _).
  exists pre, c. split; [exact He | exact Hwire].
Defined.

(** X17. The program never ends in an unhandled exception: run throws only
    when the close call is rejected, the error being that of the close
    call, and the handler attached to run prints it.  In that case the
    closing message is not printed. *)
Theorem main_never_throws (w : World) :
  fst (main w) = Returned tt
  /\ (accepted (snd (run_body w)) = true -> main w = run w)
  /\ (accepted (snd (run_body w)) = false ->
      fst (run w) = Thrown (ServerError Close)
      /\ console (snd (main w))
         = (console (snd (run_body w))
              ++ match fst (run_body w) with
                 | Returned _ => []
                 | Thrown e => [Error [Str "Error occurred:"; Failure e]]
                 end
              ++ [Error [Failure (ServerError Close)]])%list).
Proof.
  unfold main, catch. rewrite run_blocks.
  destruct (run_body w) as [[[]|e] w1]; cbn [fst snd];
    destruct (accepted w1); simpl; rewrite <- ?app_assoc;
    (split; [reflexivity | split; intros H; try discriminate H]);
    try reflexivity; split; reflexivity.
Qed.

Lemma main_never_throws_witness :
  accepted (snd (run_body (mkWorld [] [] Idle [] [] [Rejects; Rejects])))
  = false
  /\ fst (main (mkWorld [] [] Idle [] [] [Rejects; Rejects])) = Returned tt
  /\ console (snd (main (mkWorld [] [] Idle [] [] [Rejects; Rejects])))
     = [Error [Str "Error occurred:"; Failure (ServerError Connect)];
        Error [Failure (ServerError Close)]].
Proof.
  split; [reflexivity |].
  destruct (main_never_throws (mkWorld [] [] Idle [] [] [Rejects; Rejects]))
    as (Hret & _ & Hrej).
  split; [exact Hret |]. apply Hrej. reflexivity.
Defined.

(** ** The aggregations, further *)

Lemma sum_map_add {K} (f g : K -> Z) (ks : list K) :
  fold_right Z.add 0 (map (fun k => f k + g k) ks)
  = fold_right Z.add 0 (map f ks) + fold_right Z.add 0 (map g ks).
Proof. induction ks as [|k r IH]; simpl; [reflexivity | lia]. Qed.

Lemma sum_permutation (l l' : list Z) :
  Permutation l l' -> fold_right Z.add 0 l = fold_right Z.add 0 l'.
Proof. induction 1; simpl; lia. Qed.

Section CountSum.
Context {K : Type} (eqb : K -> K -> bool).
Hypothesis eqb_eq : forall a b, eqb a b = true <-> a = b.
Variable key : Book -> K.

Lemma indicator_absent (x : K) (ks : list K) :
  ~ In x ks ->
  fold_right Z.add 0 (map (fun k => if eqb x k then 1 else 0) ks) = 0.
Proof.
  induction ks as [|k r IH]; simpl; intros Hx; [reflexivity |].
  destruct (eqb x k) eqn:E.
  - exfalso. apply Hx. left. symmetry. apply eqb_eq. exact E.
  - rewrite IH; [reflexivity | tauto].
Qed.

Lemma indicator_once (x : K) (ks : list K) :
  NoDup ks -> In x ks ->
  fold_right Z.add 0 (map (fun k => if eqb x k then 1 else 0) ks) = 1.
Proof.
  induction 1 as [|k r Hk Hr IH]; simpl; intros Hx; [contradiction |].
  destruct (eqb x k) eqn:E.
  - apply eqb_eq in E. subst k. rewrite indicator_absent by exact Hk.
    reflexivity.
  - destruct Hx as [Hx | Hx].
    + subst k. rewrite (proj2 (eqb_eq x x) eq_refl) in E. discriminate.
    + rewrite IH by exact Hx. reflexivity.
Qed.

Lemma counts_sum (ks : list K) (input : list Book) :
  NoDup ks ->
  (forall b, In b input -> In (key b) ks) ->
  fold_right Z.add 0
    (map (fun k => Mongo.sum_1 (Mongo.members eqb key k input)) ks)
  = Z.of_nat (List.length input).
Proof.
  intros Hnd. induction input as [|b r IH]; intros Hin.
  - clear Hnd Hin. induction ks as [|k ks IHk]; [reflexivity |].
    simpl in *. exact IHk.
  - rewrite (map_ext _ (fun k => (if eqb (key b) k then 1 else 0)
                                 + Mongo.sum_1 (Mongo.members eqb key k r))).
    + rewrite sum_map_add, IH, indicator_once.
      * simpl List.length. lia.
      * exact Hnd.
      * apply Hin. left. reflexivity.
      * intros x Hx. apply Hin. right. exact Hx.
    + intros k. unfold Mongo.sum_1, Mongo.members. simpl.
      destruct (eqb (key b) k); simpl List.length; lia.
Qed.

Lemma group_counts_sum (input : list Book) :
  fold_right Z.add 0
    (map Mongo.acc (Mongo.group eqb key Mongo.sum_1 input))
  = Z.of_nat (List.length input).
Proof.
  unfold Mongo.group. rewrite map_map. simpl.
  apply counts_sum.
  - apply (distinct_NoDup eqb eqb_eq).
  - intros b Hb. apply (distinct_In eqb eqb_eq). apply in_map. exact Hb.
Qed.

End CountSum.

(** X19. The counts that booksByDecade prints add up to the number of
    documents of the collection: every document is counted in one decade
    and in one only. *)
Theorem booksByDecade_counts_all (w : World) :
  accepted w = true ->
  exists result,
    booksByDecade w
    = (Returned tt,
       printed [Log [Str (nl ++ "Books Grouped by Publication Decade:")];
                Table (DecadeRows result)]
               (sent (AggregateCall booksByDecade_pipeline) w))
    /\ fold_right Z.add 0 (map totalBooks result)
       = Z.of_nat (List.length (collection w)).
Proof.
  intros Hacc.
  exists (Mongo.aggregate booksByDecade_pipeline (collection w)). split.
  - unfold booksByDecade. unfold bind at 1.
    rewrite (aggregate_accepted _ _ Hacc). apply log_then_table.
  - rewrite aggregate_booksByDecade.
    rewrite (sum_permutation _ _
               (Permutation_map totalBooks
                  (sort_stage_perm Mongo._id Z.leb 1 _))).
    apply (group_counts_sum Z.eqb Zeqb_eq).
Qed.

Lemma booksByDecade_counts_all_witness :
  accepted (quiet shelf) = true
  /\ exists result,
       booksByDecade (quiet shelf)
       = (Returned tt,
          printed [Log [Str (nl ++ "Books Grouped by Publication Decade:")];
                   Table (DecadeRows result)]
                  (sent (AggregateCall booksByDecade_pipeline) (quiet shelf)))
       /\ fold_right Z.add 0 (map totalBooks result) = 3.
Proof.
  split; [reflexivity |].
  apply (booksByDecade_counts_all (quiet shelf)). reflexivity.
Defined.

(** X20. The decade of booksByDecade is the year rounded toward zero to a
    multiple of ten: it is never further from zero than the year and less
    than ten away from it, so that the years -9 to 9 share the decade 0. *)
Theorem decade_rounds_toward_zero (b : Book) :
  decade b = 10 * (published_year b ÷ 10)
  /\ Z.abs (decade b) <= Z.abs (published_year b) < Z.abs (decade b) + 10
  /\ (decade b = 0 <-> -10 < published_year b < 10).
Proof.
  unfold decade. set (y := published_year b).
  pose proof (Z.quot_rem' y 10) as Hqr.
  assert (Hrem : (0 <= y -> 0 <= Z.rem y 10 < 10)
                 /\ (y <= 0 -> -10 < Z.rem y 10 <= 0)).
  { split; intros Hy.
    - apply Z.rem_bound_pos; lia.
    - pose proof (Z.rem_bound_pos (- y) 10 ltac:(lia) ltac:(lia)) as H.
      rewrite Z.rem_opp_l in H by lia. lia. }
  destruct Hrem as [Hpos Hneg].
  destruct (Z_le_gt_dec 0 y) as [Hy | Hy].
  - specialize (Hpos Hy). repeat split; lia.
  - specialize (Hneg ltac:(lia)). repeat split; lia.
Qed.

(** X21. On an empty collection the three aggregations print an empty
    table; authorWithMostBooks names no author. *)
Theorem aggregations_of_empty_collection (w : World) :
  accepted w = true ->
  collection w = [] ->
  averagePriceByGenre w
  = (Returned tt,
     printed [Log [Str (nl ++ "Average Price by Genre:")];
              Table (GenreRows [])]
             (sent (AggregateCall averagePriceByGenre_pipeline) w))
  /\ authorWithMostBooks w
     = (Returned tt,
        printed [Log [Str (nl ++ "Author with the Most Books:")];
                 Table (AuthorRows [])]
                (sent (AggregateCall authorWithMostBooks_pipeline) w))
  /\ booksByDecade w
     = (Returned tt,
        printed [Log [Str (nl ++ "Books Grouped by Publication Decade:")];
                 Table (DecadeRows [])]
                (sent (AggregateCall booksByDecade_pipeline) w)).
Proof.
  intros Hacc Hempty.
  unfold averagePriceByGenre, authorWithMostBooks, booksByDecade.
  unfold bind at 1 3 5.
  rewrite !(aggregate_accepted _ _ Hacc), Hempty.
  repeat split; apply log_then_table.
Qed.

Lemma aggregations_of_empty_collection_witness :
  accepted (quiet []) = true
  /\ collection (quiet []) = []
  /\ authorWithMostBooks (quiet [])
     = (Returned tt,
        printed [Log [Str (nl ++ "Author with the Most Books:")];
                 Table (AuthorRows [])]
                (sent (AggregateCall authorWithMostBooks_pipeline) (quiet []))).
Proof.
  split; [reflexivity | split; [reflexivity |]].
  apply (aggregations_of_empty_collection (quiet [])); reflexivity.
Defined.





